(** * express-boilerplate: request validation and API documentation helpers

    A shallow embedding of
    - [src/middleware/validation.enhanced.ts] (the request validation
      middleware [validateRequestEnhanced]),
    - [src/config/docs.config.ts] (the [StandardResponses] table and the
      [DocHelpers.endpoint] documentation template),
    - the decorator-driven router and documentation materializers
      ([createRouterFromController], [generateSwaggerFromController]), as
      the specification describes them,
    together with the properties the specification states about them. *)

From Stdlib Require Import ZArith NArith List String Ascii Lia.
From stdpp Require Import base gmap strings list pretty.
Import ListNotations.

(** ** JavaScript values

    Request parts and JSON payloads are untyped JavaScript values.  Numbers
    are restricted to integers, which is all the modelled code produces. *)

#[warnings="-register-all"]
Inductive JsValue : Type :=
| JUndefined
| JNull
| JBool (b : bool)
| JNum (n : Z)
| JStr (s : string)
| JArr (items : list JsValue)
| JObj (props : list (string * JsValue)).

(** The line feed of a template literal or of a ['\n'] escape. *)
Definition nl : string := String (ascii_of_nat 10) EmptyString.

(** [Array.prototype.join] on an array whose elements are already strings. *)
Definition join (sep : string) (xs : list string) : string :=
  String.concat sep xs.

(** The character lies between two characters, bounds included. *)
Definition inRange (lo hi c : ascii) : bool :=
  (N_of_ascii lo <=? N_of_ascii c)%N && (N_of_ascii c <=? N_of_ascii hi)%N.

(** ** The schema library interface

    [ZodSchema] is an external dependency: the middleware only calls
    [safeParse] and reads [error.errors], [path] and [message]. *)

Module Zod.

(** An element of an issue path is a property name or an array index. *)
Inductive PathElem : Type :=
| Key (k : string)
| Index (i : N).

Record ZodIssue : Type := { path : list PathElem; message : string }.

Record ZodError : Type := { errors : list ZodIssue }.

Inductive SafeParseResult : Type :=
| SafeParseSuccess (data : JsValue)
| SafeParseError (error : ZodError).

Record ZodSchema : Type := { safeParse : JsValue -> SafeParseResult }.

(** String conversion of a path element, as [join] performs it. *)
Definition toString (p : PathElem) : string :=
  match p with
  | Key k => k
  | Index i => pretty i
  end.

(** The library never reports a failure without an issue: [safeParse]
    throws "Validation failed but no issues detected" instead. *)
Definition reportsIssues (schema : ZodSchema) : Prop :=
  forall v error, safeParse schema v = SafeParseError error -> errors error <> [].

(** *** The schema combinators used for request bodies

    [z.string()], its [.min(n)] and [.email()] checks, and
    [z.object({...})] with the default "strip" policy for unknown keys,
    following the library's version 3 parsers and default messages.  They
    supply the concrete schemas of the examples; the general properties of
    the middleware are stated for an arbitrary [ZodSchema]. *)

Inductive StringCheck : Type :=
| Min (value : nat)
| Email.

#[warnings="-register-all"]
Inductive ZodType : Type :=
| ZodString (checks : list StringCheck)
| ZodObject (shape : list (string * ZodType)).

(** [getParsedType], as it appears in "received ..." messages. *)
Definition getParsedType (v : JsValue) : string :=
  match v with
  | JUndefined => "undefined"
  | JNull => "null"
  | JBool _ => "boolean"
  | JNum _ => "number"
  | JStr _ => "string"
  | JArr _ => "array"
  | JObj _ => "object"
  end.

(** The [invalid_type] issue with its default message. *)
Definition invalidType (expected : string) (v : JsValue) (p : list PathElem) : ZodIssue :=
  {| path := p;
     message :=
       match v with
       | JUndefined => "Required"
       | _ => "Expected " +:+ expected +:+ ", received " +:+ getParsedType v
       end |}.

Definition isLetter (c : ascii) : bool := inRange "a" "z" c || inRange "A" "Z" c.

Definition isAlnum (c : ascii) : bool := isLetter c || inRange "0" "9" c.

Definition oneOf (cs : string) (c : ascii) : bool :=
  existsb (Ascii.eqb c) (list_ascii_of_string cs).

Fixpoint splitOn (sep : ascii) (s : list ascii) : list (list ascii) :=
  match s with
  | [] => [[]]
  | c :: rest =>
      match splitOn sep rest with
      | cur :: more => if Ascii.eqb c sep then [] :: cur :: more else (c :: cur) :: more
      | [] => [[c]]
      end
  end.

Fixpoint hasDotDot (s : list ascii) : bool :=
  match s with
  | c :: (d :: _) as rest => (Ascii.eqb c "." && Ascii.eqb d ".") || hasDotDot rest
  | _ => false
  end.

(** A domain label: a letter or digit, then letters, digits or hyphens. *)
Definition isDomainLabel (l : list ascii) : bool :=
  match l with
  | c :: rest => isAlnum c && forallb (fun d => isAlnum d || oneOf "-" d) rest
  | [] => false
  end.

(** The email check (case-insensitive): the text neither starts with a
    dot nor contains two dots in a row; before the single at-sign come
    letters, digits and the characters _ ' + - . with the last one not an
    apostrophe or a dot; after it come one or more dot-terminated domain
    labels and a top-level domain of at least two letters. *)
Definition emailRegex (s : string) : bool :=
  let cs := list_ascii_of_string s in
  negb (match cs with c :: _ => Ascii.eqb c "." | [] => false end) &&
  negb (hasDotDot cs) &&
  match splitOn "@" cs with
  | [local; domain] =>
      forallb (fun c => isAlnum c || oneOf "_'+-." c) local &&
      match last local with
      | Some c => isAlnum c || oneOf "_+-" c
      | None => false
      end &&
      match reverse (splitOn "." domain) with
      | tld :: label :: labels =>
          (2 <=? length tld) && forallb isLetter tld &&
          forallb isDomainLabel (label :: labels)
      | _ => false
      end
  | _ => false
  end.

(** One check of [ZodString._parse]; every check runs, none aborts.  The
    length is counted in bytes, which is the library's count on ASCII
    text. *)
Definition checkString (p : list PathElem) (s : string) (check : StringCheck) : list ZodIssue :=
  match check with
  | Min value =>
      if String.length s <? value then
        [{| path := p;
            message := "String must contain at least " +:+ pretty value +:+ " character(s)" |}]
      else []
  | Email =>
      if emailRegex s then [] else [{| path := p; message := "Invalid email" |}]
  end.

(** Property read [data[key]]: [undefined] when the key is absent. *)
Fixpoint getProp (key : string) (props : list (string * JsValue)) : JsValue :=
  match props with
  | [] => JUndefined
  | (k, v) :: rest => if String.eqb k key then v else getProp key rest
  end.

Definition hasProp (key : string) (props : list (string * JsValue)) : bool :=
  existsb (fun kv => String.eqb (fst kv) key) props.

(** [_parse]: the issues raised, in the order the library adds them, and
    the parsed output (meaningful when there is no issue). *)
Fixpoint parseType (t : ZodType) (p : list PathElem) (v : JsValue)
    : list ZodIssue * JsValue :=
  match t with
  | ZodString checks =>
      match v with
      | JStr s => (flat_map (checkString p s) checks, v)
      | _ => ([invalidType "string" v p], v)
      end
  | ZodObject shape =>
      match v with
      | JObj props =>
          let fix parseShape (shape : list (string * ZodType))
              : list ZodIssue * list (string * JsValue) :=
            match shape with
            | [] => ([], [])
            | (key, fieldType) :: rest =>
                let '(issues, value) :=
                  parseType fieldType (p ++ [Key key]) (getProp key props) in
                let '(moreIssues, fields) := parseShape rest in
                (issues ++ moreIssues,
                 match value with
                 | JUndefined => if hasProp key props then (key, value) :: fields else fields
                 | _ => (key, value) :: fields
                 end)
            end in
          let '(issues, fields) := parseShape shape in
          (issues, JObj fields)
      | _ => ([invalidType "object" v p], v)
      end
  end.

(** The schema object of a type, with [safeParse] as [handleResult]
    builds it. *)
Definition schema (t : ZodType) : ZodSchema :=
  {| safeParse := fun v =>
       match parseType t [] v with
       | ([], data) => SafeParseSuccess data
       | (issues, _) => SafeParseError {| errors := issues |}
       end |}.

End Zod.

(** ** The part of Express the middleware touches *)

Module Express.

Record Request : Type := { body : JsValue; params : JsValue; query : JsValue }.

(** A response records the status code and every payload sent. *)
Record Response : Type := { statusCode : Z; sent : list JsValue }.

Definition status (code : Z) (res : Response) : Response :=
  {| statusCode := code; sent := sent res |}.

Definition json (payload : JsValue) (res : Response) : Response :=
  {| statusCode := statusCode res; sent := sent res ++ [payload] |}.

Definition set_body (v : JsValue) (req : Request) : Request :=
  {| body := v; params := params req; query := query req |}.

Definition set_params (v : JsValue) (req : Request) : Request :=
  {| body := body req; params := v; query := query req |}.

Definition set_query (v : JsValue) (req : Request) : Request :=
  {| body := body req; params := params req; query := v |}.

(** What one middleware invocation leaves behind: the (mutated) request,
    the response, and how many times [next()] was called. *)
Record Exchange : Type :=
  { request : Request; response : Response; nextCalls : nat }.

End Express.

(** ** [validation.enhanced.ts] *)

Module Validation.
Import Zod Express.

Record ValidationSchemas : Type :=
  { body : option ZodSchema; params : option ZodSchema; query : option ZodSchema }.

Record FieldError : Type := { field : string; message : string }.

Definition fieldErrorToJs (e : FieldError) : JsValue :=
  JObj [("field", JStr (field e)); ("message", JStr (message e))].

(** The object literal handed to [res.json]. *)
Definition errorPayload (errors : list FieldError) : JsValue :=
  JObj [("success", JBool false);
        ("message", JStr "Validation error");
        ("errors", JArr (map fieldErrorToJs errors))].

Definition validateRequestEnhanced (schemas : ValidationSchemas)
    (req : Request) (res : Response) : Exchange :=
  let errors : list FieldError := [] in
  (* Validate body *)
  let '(req, errors) :=
    match body schemas with
    | Some schema =>
        match safeParse schema (Express.body req) with
        | SafeParseError error =>
            (req,
             errors ++
             map (fun err =>
                    {| field := "body." +:+ join "." (map toString (path err));
                       message := Zod.message err |})
                 (Zod.errors error))
        | SafeParseSuccess data => (set_body data req, errors)
        end
    | None => (req, errors)
    end in
  (* Validate params *)
  let '(req, errors) :=
    match params schemas with
    | Some schema =>
        match safeParse schema (Express.params req) with
        | SafeParseError error =>
            (req,
             errors ++
             map (fun err =>
                    {| field := "params." +:+ join "." (map toString (path err));
                       message := Zod.message err |})
                 (Zod.errors error))
        | SafeParseSuccess data => (set_params data req, errors)
        end
    | None => (req, errors)
    end in
  (* Validate query *)
  let '(req, errors) :=
    match query schemas with
    | Some schema =>
        match safeParse schema (Express.query req) with
        | SafeParseError error =>
            (req,
             errors ++
             map (fun err =>
                    {| field := "query." +:+ join "." (map toString (path err));
                       message := Zod.message err |})
                 (Zod.errors error))
        | SafeParseSuccess data => (set_query data req, errors)
        end
    | None => (req, errors)
    end in
  (* If there are validation errors, return them *)
  if 0 <? length errors then
    {| request := req;
       response := json (errorPayload errors) (status 400 res);
       nextCalls := 0 |}
  else
    (* Call next middleware if all validations pass *)
    {| request := req; response := res; nextCalls := 1 |}.

(** [validateRequest], kept for backward compatibility. *)
Definition validateRequest (schema : ZodSchema) :=
  validateRequestEnhanced {| body := Some schema; params := None; query := None |}.

End Validation.

(** ** [docs.config.ts] *)

Module Docs.

(** An entry of [StandardResponses]. *)
Record ResponseTemplate : Type :=
  { description : string; schemaRef : string; example : option JsValue }.

Definition errorExample (msg : string) : JsValue :=
  JObj [("success", JBool false); ("message", JStr msg)].

Definition StandardResponses : list (Z * ResponseTemplate) :=
  [ (200%Z, {| description := "Success";
               schemaRef := "#/components/schemas/SuccessResponse";
               example := None |});
    (201%Z, {| description := "Created";
               schemaRef := "#/components/schemas/SuccessResponse";
               example := None |});
    (400%Z, {| description := "Bad Request";
               schemaRef := "#/components/schemas/Error";
               example :=
                 Some (JObj [("success", JBool false);
                             ("message", JStr "Validation error");
                             ("errors",
                              JArr [JObj [("field", JStr "email");
                                          ("message", JStr "Invalid email format")]])]) |});
    (401%Z, {| description := "Unauthorized";
               schemaRef := "#/components/schemas/Error";
               example := Some (errorExample "Authentication required") |});
    (403%Z, {| description := "Forbidden";
               schemaRef := "#/components/schemas/Error";
               example := Some (errorExample "Insufficient permissions") |});
    (404%Z, {| description := "Not Found";
               schemaRef := "#/components/schemas/Error";
               example := Some (errorExample "Resource not found") |});
    (500%Z, {| description := "Internal Server Error";
               schemaRef := "#/components/schemas/Error";
               example := Some (errorExample "Internal server error") |}) ].

End Docs.

Module DocHelpers.

(** The [config] argument of [DocHelpers.endpoint]; the optional
    properties are [option]s, [None] standing for [undefined]. *)
Record EndpointConfig : Type :=
  { method : string;
    path : string;
    summary : string;
    description : option string;
    tags : list string;
    auth : option bool;
    body : option string;
    responses : option (list Z) }.

(** [String.prototype.toLowerCase] on ASCII text. *)
Fixpoint toLowerCase (s : string) : string :=
  match s with
  | EmptyString => EmptyString
  | String c rest =>
      String (if inRange "A" "Z" c then ascii_of_N (N_of_ascii c + 32) else c)
             (toLowerCase rest)
  end.

(** [a || b] on an optional string: the empty string is falsy too. *)
Definition orString (a : option string) (b : string) : string :=
  match a with
  | Some EmptyString | None => b
  | Some s => s
  end.

Definition endpoint (config : EndpointConfig) : string :=
  nl +:+ "/**" +:+ nl +:+
  " * @swagger" +:+ nl +:+
  " * " +:+ path config +:+ ":" +:+ nl +:+
  " *   " +:+ toLowerCase (method config) +:+ ":" +:+ nl +:+
  " *     summary: " +:+ summary config +:+ nl +:+
  " *     description: " +:+ orString (description config) (summary config) +:+ nl +:+
  " *     tags: [" +:+ join ", " (tags config) +:+ "]" +:+
  match auth config with
  | Some true => nl +:+ " *     security:" +:+ nl +:+ " *       - bearerAuth: []"
  | _ => ""
  end +:+
  match body config with
  | Some EmptyString | None => ""
  | Some schemaName =>
      nl +:+ " *     requestBody:" +:+ nl +:+
      " *       required: true" +:+ nl +:+
      " *       content:" +:+ nl +:+
      " *         application/json:" +:+ nl +:+
      " *           schema:" +:+ nl +:+
      " *             $ref: '#/components/schemas/" +:+ schemaName +:+ "'"
  end +:+ nl +:+
  " *     responses:" +:+
  join ""
    (map (fun code =>
            nl +:+ " *       " +:+ pretty code +:+ ":" +:+ nl +:+
            " *         $ref: '#/components/responses/" +:+ pretty code +:+ "'")
         (match responses config with
          | Some codes => codes
          | None => [200%Z; 400%Z; 500%Z]
          end)) +:+ nl +:+
  " */".

End DocHelpers.

(** ** The decorator-driven materializers

    The metadata a controller class carries ([decorators/api.decorators.ts])
    and its two consumers ([decorators/router.generator.ts]). *)

Module Decorators.

(** Modelled from the spec: the verb enumeration of section 3;
    [decorators/api.decorators.ts], which declares it, is missing. *)
Inductive HttpMethod : Type := GET | POST | PUT | PATCH | DELETE.

#[export] Instance HttpMethod_eq_dec : EqDecision HttpMethod.
Proof. solve_decision. Defined.

Definition methodIndex (m : HttpMethod) : nat :=
  match m with GET => 0 | POST => 1 | PUT => 2 | PATCH => 3 | DELETE => 4 end.

Definition methodOfIndex (n : nat) : option HttpMethod :=
  match n with
  | 0 => Some GET | 1 => Some POST | 2 => Some PUT | 3 => Some PATCH | 4 => Some DELETE
  | _ => None
  end.

#[export] Instance HttpMethod_countable : Countable HttpMethod.
Proof.
  apply (inj_countable methodIndex methodOfIndex). intros m. destruct m; reflexivity.
Defined.

Definition methodName (m : HttpMethod) : string :=
  match m with
  | GET => "GET" | POST => "POST" | PUT => "PUT" | PATCH => "PATCH" | DELETE => "DELETE"
  end.

(** Modelled from the spec: the documentation attributes of a method
    ([docFields], section 3): summary, description, tag list, response
    descriptions per status code, bearer-auth flag;
    [decorators/api.decorators.ts] is missing. *)
Record DocFields : Type :=
  { summary : option string;
    description : option string;
    tags : list string;
    responses : list (Z * string);
    bearerAuth : bool }.

(** Modelled from the spec: the per-method record of section 3
    ([decorators/api.decorators.ts] is missing).  A method that carries
    metadata but no HTTP-verb annotation has no [httpMethod] (sections 4.2
    and 7); middlewares are referred to by name. *)
Record RouteMetadata : Type :=
  { handlerRef : string;
    httpMethod : option HttpMethod;
    path : string;
    middlewares : list string;
    validation : option Validation.ValidationSchemas;
    docFields : option DocFields }.

(** Modelled from the spec: the per-class record of section 3
    ([decorators/api.decorators.ts] is missing). *)
Record ControllerMetadata : Type := { basePath : string; classTags : list string }.

(** Modelled from the spec: a controller with its decorated methods in
    declaration order ([decorators/api.decorators.ts] is missing). *)
Record Controller : Type :=
  { metadata : ControllerMetadata; methods : list RouteMetadata }.

(** *** Router materializer (section 4.2) *)

(** Modelled from the spec: a step of a handler chain, section 4.2 step 2
    ([decorators/router.generator.ts] is missing). *)
Inductive Step : Type :=
| Middleware (ref : string)
| ValidationStep (schemas : Validation.ValidationSchemas)
| Handler (ref : string).

(** Modelled from the spec: a chain registered under a verb and a full
    path ([decorators/router.generator.ts] is missing). *)
Record Route : Type :=
  { routeMethod : HttpMethod; routePath : string; chain : list Step }.

(** Modelled from the spec: the output router, as the sequence of its
    registrations, oldest first ([decorators/router.generator.ts] is
    missing). *)
Definition Router : Type := list Route.

(** Modelled from the spec: "register the chain under (httpMethod,
    fullPath) on the output router" ([decorators/router.generator.ts] is
    missing). *)
Definition register (m : HttpMethod) (fullPath : string) (steps : list Step)
    (router : Router) : Router :=
  router ++ [{| routeMethod := m; routePath := fullPath; chain := steps |}].

(** Modelled from the spec: the handler chain of section 4.2, step 2
    ([decorators/router.generator.ts] is missing): method-level
    middlewares in declaration order, then the validation step when
    schemas are present, then the bound method. *)
Definition handlerChain (r : RouteMetadata) : list Step :=
  map Middleware (middlewares r) ++
  match validation r with
  | Some schemas => [ValidationStep schemas]
  | None => []
  end ++
  [Handler (handlerRef r)].

(** Modelled from the spec: [createRouterFromController] of
    [decorators/router.generator.ts], which is missing (section 4.2):
    every entry with a verb is registered under [basePath + path], in
    declaration order, and an entry without a verb is skipped. *)
Definition createRouterFromController (c : Controller) : Router :=
  foldl (fun router r =>
           match httpMethod r with
           | Some m =>
               register m (basePath (metadata c) +:+ path r) (handlerChain r) router
           | None => router
           end)
        [] (methods c).

(** Modelled from the spec: the table the router dispatches from, the
    routing framework being missing; a registration under a key already
    present replaces the earlier one ("last-write-wins", sections 4.2
    and 7). *)
Definition routeTable (router : Router) : gmap (HttpMethod * string) (list Step) :=
  foldl (fun table r => <[(routeMethod r, routePath r) := chain r]> table) ∅ router.

(** Modelled from the spec: the router mounted by the caller under a
    mount-point prefix (section 4.3), the routing framework being missing:
    the pairs of lower-cased verb and full path it then answers to. *)
Definition mountedRoutes (prefix : string) (router : Router) : gset (string * string) :=
  list_to_set
    (map (fun r => (DocHelpers.toLowerCase (methodName (routeMethod r)),
                    prefix +:+ routePath r))
         router).

(** *** Documentation materializer (section 4.3) *)

(** Modelled from the spec: one operation of the path document
    ([decorators/router.generator.ts] is missing). *)
Record Operation : Type :=
  { opSummary : string;
    opDescription : string;
    opTags : list string;
    security : option (list (list (string * list string)));
    opResponses : list (Z * string) }.

(** Modelled from the spec: how section 4.3 fills an operation
    ([decorators/router.generator.ts] is missing): documentation fields
    populate it, absent ones fall back to empty defaults; the bearer-auth
    flag adds the security requirement; one response per declared status
    code. *)
Definition operationOf (r : RouteMetadata) : Operation :=
  match docFields r with
  | Some d =>
      {| opSummary := default "" (summary d);
         opDescription := default "" (description d);
         opTags := tags d;
         security := if bearerAuth d then Some [[("bearerAuth", [])]] else None;
         opResponses := responses d |}
  | None =>
      {| opSummary := ""; opDescription := ""; opTags := [];
         security := None; opResponses := [] |}
  end.

(** Modelled from the spec: the [paths] object of section 6
    ([decorators/router.generator.ts] is missing). *)
Record SwaggerFragment : Type :=
  { paths : gmap string (gmap string Operation) }.

(** Modelled from the spec: [generateSwaggerFromController] of
    [decorators/router.generator.ts], which is missing (section 4.3); the
    caller's mount-point prefix is composed in front of [basePath], and
    each entry with a verb yields one path-item entry keyed by full path
    and lower-cased verb; an entry without a verb is skipped (section 7). *)
Definition generateSwaggerFromController (c : Controller) (prefix : string)
    : SwaggerFragment :=
  {| paths :=
       foldl (fun acc r =>
                match httpMethod r with
                | Some m =>
                    let fullPath := prefix +:+ basePath (metadata c) +:+ path r in
                    <[fullPath :=
                        <[DocHelpers.toLowerCase (methodName m) := operationOf r]>
                          (default ∅ (acc !! fullPath))]> acc
                | None => acc
                end)
             ∅ (methods c) |}.

(** The keys of a path document, as pairs of verb key and path key. *)
Definition pathItemKeys (doc : SwaggerFragment) : gset (string * string) :=
  list_to_set
    (map_to_list (paths doc) ≫=
       fun entry => (fun verb => (verb, entry.1)) <$> elements (dom entry.2)).

End Decorators.

(** ** [DocHelpers.crud] *)

Module Crud.
Import DocHelpers.

(** [String.prototype.toUpperCase] on ASCII text; other bytes are left as
    they are. *)
Fixpoint toUpperCase (s : string) : string :=
  match s with
  | EmptyString => EmptyString
  | String c rest =>
      String (if inRange "a" "z" c then ascii_of_N (N_of_ascii c - 32) else c)
             (toUpperCase rest)
  end.

(** [s.charAt(i)]: the empty string when [i] is out of range. *)
Definition charAt (i : nat) (s : string) : string := substring i 1 s.

(** [s.slice(start)] for a non-negative [start]. *)
Definition slice (start : nat) (s : string) : string :=
  substring start (String.length s - start) s.

(** The object [crud] returns; its properties are [list], [get], [create],
    [update] and [delete]. *)
Record CrudDocs : Type :=
  { listDoc : string;
    getDoc : string;
    createDoc : string;
    updateDoc : string;
    deleteDoc : string }.

Definition crud (resource schema : string) : CrudDocs :=
  {| listDoc :=
       endpoint
         {| method := "GET";
            path := "/api/" +:+ resource;
            summary := "List " +:+ resource;
            description := Some ("Get paginated list of " +:+ resource);
            tags := [toUpperCase (charAt 0 resource) +:+ slice 1 resource];
            auth := Some true;
            body := None;
            responses := Some [200%Z; 401%Z; 500%Z] |};
     getDoc :=
       endpoint
         {| method := "GET";
            path := "/api/" +:+ resource +:+ "/{id}";
            summary := "Get " +:+ resource;
            description := Some ("Get a specific " +:+ resource +:+ " by ID");
            tags := [toUpperCase (charAt 0 resource) +:+ slice 1 resource];
            auth := Some true;
            body := None;
            responses := Some [200%Z; 401%Z; 404%Z; 500%Z] |};
     createDoc :=
       endpoint
         {| method := "POST";
            path := "/api/" +:+ resource;
            summary := "Create " +:+ resource;
            description := Some ("Create a new " +:+ resource);
            tags := [toUpperCase (charAt 0 resource) +:+ slice 1 resource];
            auth := Some true;
            body := Some schema;
            responses := Some [201%Z; 400%Z; 401%Z; 500%Z] |};
     updateDoc :=
       endpoint
         {| method := "PUT";
            path := "/api/" +:+ resource +:+ "/{id}";
            summary := "Update " +:+ resource;
            description := Some ("Update an existing " +:+ resource);
            tags := [toUpperCase (charAt 0 resource) +:+ slice 1 resource];
            auth := Some true;
            body := Some schema;
            responses := Some [200%Z; 400%Z; 401%Z; 404%Z; 500%Z] |};
     deleteDoc :=
       endpoint
         {| method := "DELETE";
            path := "/api/" +:+ resource +:+ "/{id}";
            summary := "Delete " +:+ resource;
            description := Some ("Delete a " +:+ resource);
            tags := [toUpperCase (charAt 0 resource) +:+ slice 1 resource];
            auth := Some true;
            body := None;
            responses := Some [200%Z; 401%Z; 404%Z; 500%Z] |} |}.

End Crud.

(** ** [env-config.ts] *)

Module EnvConfig.

(** The double quote of a template literal. *)
Definition dquote : string := String (ascii_of_nat 34) EmptyString.

(** [process.env], in the order [Object.keys] lists it. *)
Definition ProcessEnv : Type := list (string * string).

(** What the module takes from its surroundings: the file system, the
    [dotenv] loader, and [env-schema.ts] ([envSchema], the keys of its
    [shape], and the keys of a formatted error). *)
Record Host : Type :=
  { existsSync : string -> bool;
    dotenvConfig : string -> ProcessEnv -> ProcessEnv;
    envSchema : Zod.ZodSchema;
    shapeKeys : list string;
    formatKeys : Zod.ZodError -> list string }.

Inductive Level : Type := Log | Warn | Error.

(** What evaluating the module leaves behind: the console lines, the exit
    code when [process.exit] was called, the exported [env], and
    [process.env]. *)
Record Outcome : Type :=
  { console : list (Level * string);
    exitCode : option Z;
    env : option JsValue;
    processEnv : ProcessEnv }.

(** [process.env.KEY]: [undefined] for an unset variable. *)
Definition getenv (key : string) (vars : ProcessEnv) : option string :=
  snd <$> find (fun kv => String.eqb (fst kv) key) vars.

(** An optional string inside a template literal. *)
Definition interpolate (v : option string) : string :=
  match v with
  | Some s => s
  | None => "undefined"
  end.

(** [process.env] as the object handed to [safeParse]. *)
Definition envObject (vars : ProcessEnv) : JsValue :=
  JObj (map (fun kv => (fst kv, JStr (snd kv))) vars).

Definition systemVars : list string :=
  [
    "ACLOCAL_PATH"; "ALLUSERSPROFILE"; "APPDATA"; "COLOR"; "COMMONPROGRAMFILES";
    "CommonProgramFiles(x86)"; "CommonProgramW6432"; "COMPUTERNAME"; "COMSPEC";
    "IGCCSVC_DB"; "CONFIG_SITE"; "DriverData"; "EXEPATH"; "HOMEDRIVE"; "HOMEPATH";
    "LOCALAPPDATA"; "LOGONSERVER"; "MINGW_CHOST"; "MINGW_PACKAGE_PREFIX";
    "MINGW_PREFIX"; "MSYS"; "MSYSTEM"; "MSYSTEM_CARCH"; "MSYSTEM_CHOST";
    "MSYSTEM_PREFIX"; "NUMBER_OF_PROCESSORS"; "NVM_HOME"; "NVM_SYMLINK"; "OneDrive";
    "OneDriveConsumer"; "ORIGINAL_PATH"; "ORIGINAL_TEMP"; "ORIGINAL_TMP"; "OS";
    "PATHEXT"; "PLINK_PROTOCOL"; "PROCESSOR_ARCHITECTURE"; "PROCESSOR_IDENTIFIER";
    "PROCESSOR_LEVEL"; "PROCESSOR_REVISION"; "ProgramData"; "PROGRAMFILES";
    "ProgramFiles(x86)"; "ProgramW6432"; "PROMPT"; "PSModulePath"; "PUBLIC";
    "SESSIONNAME"; "SYSTEMDRIVE"; "SYSTEMROOT"; "USERDOMAIN";
    "USERDOMAIN_ROAMINGPROFILE"; "USERNAME"; "USERPROFILE"; "WINDIR"; "WSLENV";
    "WT_PROFILE_ID"; "WT_SESSION"; "ZES_ENABLE_SYSMAN"; "BAMF_DESKTOP_FILE_HINT";
    "CHROME_DESKTOP"; "COLORTERM"; "DBUS_SESSION_BUS_ADDRESS"; "DBUS_STARTER_ADDRESS";
    "DBUS_STARTER_BUS_TYPE"; "DEBUGINFOD_URLS"; "DESKTOP_SESSION"; "DISPLAY";
    "EDITOR"; "FONTCONFIG_FILE"; "FONTCONFIG_PATH"; "GDK_BACKEND";
    "GDK_BACKEND_VSCODE_SNAP_ORIG"; "GDMSESSION"; "GIO_LAUNCHED_DESKTOP_FILE";
    "GIO_LAUNCHED_DESKTOP_FILE_PID"; "GIO_MODULE_DIR";
    "GIO_MODULE_DIR_VSCODE_SNAP_ORIG"; "GIT_ASKPASS"; "GIT_PAGER"; "GJS_DEBUG_OUTPUT";
    "GJS_DEBUG_TOPICS"; "GNOME_DESKTOP_SESSION_ID"; "GNOME_SETUP_DISPLAY";
    "GNOME_SHELL_SESSION_MODE"; "GNOME_TERMINAL_SCREEN"; "GNOME_TERMINAL_SERVICE";
    "GSM_SKIP_SSH_AGENT_WORKAROUND"; "GSETTINGS_SCHEMA_DIR";
    "GSETTINGS_SCHEMA_DIR_VSCODE_SNAP_ORIG"; "GTK_EXE_PREFIX";
    "GTK_EXE_PREFIX_VSCODE_SNAP_ORIG"; "GTK_IM_MODULE_FILE";
    "GTK_IM_MODULE_FILE_VSCODE_SNAP_ORIG"; "GTK_MODULES"; "GTK_PATH";
    "GTK_PATH_VSCODE_SNAP_ORIG"; "HOME"; "HOSTNAME"; "IM_CONFIG_CHECK_ENV";
    "IM_CONFIG_PHASE"; "INFOPATH"; "INIT_CWD"; "INVOCATION_ID"; "JOURNAL_STREAM";
    "LANG"; "LESSCLOSE"; "LESSOPEN"; "LOCPATH"; "LOCPATH_VSCODE_SNAP_ORIG"; "LOGNAME";
    "LS_COLORS"; "MANAGERPID"; "MANPATH"; "MEMORY_PRESSURE_WATCH";
    "MEMORY_PRESSURE_WRITE"; "NODE"; "NO_AT_BRIDGE"; "NVM_BIN"; "NVM_CD_FLAGS";
    "NVM_DIR"; "NVM_INC"; "OLDPWD"; "ORIGINAL_XDG_CURRENT_DESKTOP"; "PATH";
    "PKG_CONFIG_PATH"; "PKG_CONFIG_SYSTEM_INCLUDE_PATH";
    "PKG_CONFIG_SYSTEM_LIBRARY_PATH"; "PWD"; "QT_ACCESSIBILITY"; "QT_IM_MODULE";
    "SESSION_MANAGER"; "SHELL"; "SHLVL"; "SSH_ASKPASS"; "SSH_AUTH_SOCK";
    "SYSTEMD_EXEC_PID"; "TEMP"; "TERM"; "TERM_PROGRAM"; "TERM_PROGRAM_VERSION"; "TMP";
    "TMPDIR"; "UNUSED_VARIABLE"; "USER"; "VTE_VERSION";
    "VSCODE_GIT_ASKPASS_EXTRA_ARGS"; "VSCODE_GIT_ASKPASS_MAIN";
    "VSCODE_GIT_ASKPASS_NODE"; "VSCODE_GIT_IPC_HANDLE"; "WAYLAND_DISPLAY";
    "XAUTHORITY"; "XDG_CONFIG_DIRS"; "XDG_CONFIG_DIRS_VSCODE_SNAP_ORIG";
    "XDG_CURRENT_DESKTOP"; "XDG_DATA_DIRS"; "XDG_DATA_DIRS_VSCODE_SNAP_ORIG";
    "XDG_DATA_HOME"; "XDG_DATA_HOME_VSCODE_SNAP_ORIG"; "XDG_MENU_PREFIX";
    "XDG_RUNTIME_DIR"; "XDG_SESSION_CLASS"; "XDG_SESSION_DESKTOP"; "XDG_SESSION_TYPE";
    "XMODIFIERS"; "YARN_WRAP_OUTPUT"; "_" ].

(** The module body, top to bottom; [process.exit(1)] ends it. *)
Definition envConfig (host : Host) (vars : ProcessEnv) : Outcome :=
  let envFile := ".env." +:+ DocHelpers.orString (getenv "NODE_ENV" vars) "dev" in
  let '(vars, console) :=
    if existsSync host envFile then
      let vars := dotenvConfig host envFile vars in
      (vars,
       [(Log, "✅ Loaded environment: " +:+ envFile +:+ nl +:+
              "NODE_ENV: " +:+ interpolate (getenv "NODE_ENV" vars))])
    else
      (vars,
       [(Warn, "⚠️ Warning: Environment file " +:+ dquote +:+ envFile +:+ dquote +:+
               " not found. Using defaults.")]) in
  let parsedEnv := Zod.safeParse (envSchema host) (envObject vars) in
  let NODE_ENV := DocHelpers.orString (getenv "NODE_ENV" vars) "development" in
  match parsedEnv with
  | Zod.SafeParseError error =>
      let formattedErrors := formatKeys host error in
      let missingKeys :=
        List.filter (fun key => negb (String.eqb key "_errors")) formattedErrors in
      {| console :=
           console ++
           [(Error, "❌ Missing environment variables in " +:+ dquote +:+ NODE_ENV +:+
                    dquote +:+ " .env file:" +:+ nl +:+ join ", " missingKeys)];
         exitCode := Some 1%Z;
         env := None;
         processEnv := vars |}
  | Zod.SafeParseSuccess data =>
      let console := console ++ [(Log, "Loaded environment: .env." +:+ NODE_ENV)] in
      let definedEnvKeys := map fst vars in
      let allowedKeys := shapeKeys host in
      let extraKeys :=
        List.filter
          (fun key =>
             negb (existsb (String.eqb key) allowedKeys) &&
             negb (existsb (String.eqb key) systemVars) &&
             negb (String.prefix "npm_" key) &&
             negb (String.prefix "MSYSTEM" key) &&
             negb (String.prefix "MINGW" key) &&
             negb (String.prefix "WT_" key))
          definedEnvKeys in
      {| console :=
           if 0 <? length extraKeys then
             console ++
             [(Warn, "⚠️ Warning: Unused environment variables detected: " +:+
                     join ", " extraKeys)]
           else console;
         exitCode := None;
         env := Some data;
         processEnv := vars |}
  end.

End EnvConfig.

(** ** The schema registry of [docs.config.ts] *)

Module ApiSchemas.

(** A schema object of the registry: a reference, the empty schema, a
    primitive with its annotations, an array or an object. *)
#[warnings="-register-all"]
Inductive Schema : Type :=
| SchemaRef (ref : string)
| SchemaAny
| SchemaPrimitive (type : string) (format : option string) (example : option JsValue)
                  (minLength : option nat)
| SchemaArray (items : Schema)
| SchemaObject (properties : list (string * Schema)) (required : list string).

Definition boolean (example : bool) : Schema :=
  SchemaPrimitive "boolean" None (Some (JBool example)) None.

Definition text (format : option string) (example : option string) : Schema :=
  SchemaPrimitive "string" format (JStr <$> example) None.

Definition integer (example : Z) : Schema :=
  SchemaPrimitive "integer" None (Some (JNum example)) None.

Definition APISchemas : list (string * Schema) :=
  [ ("Error",
     SchemaObject
       [ ("success", boolean false);
         ("message", text None (Some "Error message"));
         ("errors",
          SchemaArray
            (SchemaObject [("field", text None None); ("message", text None None)] [])) ]
       []);
    ("PaginatedResponse",
     SchemaObject
       [ ("success", boolean true);
         ("data", SchemaArray SchemaAny);
         ("pagination",
          SchemaObject
            [ ("page", integer 1); ("limit", integer 10); ("total", integer 100);
              ("totalPages", integer 10) ]
            []) ]
       []);
    ("SuccessResponse",
     SchemaObject
       [ ("success", boolean true);
         ("message", text None (Some "Operation successful"));
         ("data", SchemaObject [] []) ]
       []);
    ("User",
     SchemaObject
       [ ("id", text (Some "uuid") None);
         ("email", text (Some "email") None);
         ("firstName", text None None);
         ("createdAt", text (Some "date-time") None);
         ("updatedAt", text (Some "date-time") None) ]
       []);
    ("UserInput",
     SchemaObject
       [ ("email", text (Some "email") (Some "user@example.com"));
         ("firstName", text None (Some "John"));
         ("password", SchemaPrimitive "string" None (Some (JStr "Password1!")) (Some 8)) ]
       ["email"; "firstName"; "password"]);
    ("LoginInput",
     SchemaObject
       [ ("email", text (Some "email") (Some "user@example.com"));
         ("password", text None (Some "Password1!")) ]
       ["email"; "password"]);
    ("AuthResponse",
     SchemaObject
       [ ("success", boolean true);
         ("message", text None (Some "Authentication successful"));
         ("data",
          SchemaObject
            [ ("token", text None (Some "eyJhbGciOiJIUzI1NiIsInR5cCI6IkpXVCJ9..."));
              ("user", SchemaRef "#/components/schemas/User") ]
            []) ]
       []) ].

(** The schema a reference into [components.schemas] names. *)
Definition resolve (registry : list (string * Schema)) (ref : string) : option Schema :=
  let root := "#/components/schemas/" in
  if String.prefix root ref then
    snd <$> find (fun entry =>
                    String.eqb (fst entry)
                      (substring (String.length root)
                                 (String.length ref - String.length root) ref))
                 registry
  else None.

(** The value is an instance of the schema, read as OpenAPI does: a
    declared property is checked when the value has it, a required one must
    be there, other properties are allowed, and formats and examples are
    annotations.  References are followed at most [depth] times. *)
Fixpoint instanceOf (registry : list (string * Schema)) (depth : nat)
    : Schema -> JsValue -> bool :=
  fix check (schema : Schema) (value : JsValue) {struct schema} : bool :=
    match schema with
    | SchemaRef ref =>
        match depth with
        | 0 => false
        | S depth' =>
            match resolve registry ref with
            | Some target => instanceOf registry depth' target value
            | None => false
            end
        end
    | SchemaAny => true
    | SchemaPrimitive type _ _ minLength =>
        match value with
        | JBool _ => String.eqb type "boolean"
        | JNum _ => String.eqb type "integer" || String.eqb type "number"
        | JStr text =>
            String.eqb type "string" &&
            match minLength with
            | Some n => n <=? String.length text
            | None => true
            end
        | _ => false
        end
    | SchemaArray items =>
        match value with
        | JArr elements => forallb (check items) elements
        | _ => false
        end
    | SchemaObject properties required =>
        match value with
        | JObj props =>
            (fix checkAll (properties : list (string * Schema)) : bool :=
               match properties with
               | [] => true
               | (name, property) :: rest =>
                   (if Zod.hasProp name props
                    then check property (Zod.getProp name props)
                    else true) && checkAll rest
               end) properties &&
            forallb (fun name => Zod.hasProp name props) required
        | _ => false
        end
    end.

End ApiSchemas.

(** * Vocabulary of the properties *)

(** ** Request parts *)

Module Parts.

Inductive Part : Type := Body | Params | Query.

Definition partName (p : Part) : string :=
  match p with Body => "body" | Params => "params" | Query => "query" end.

Definition schemaFor (schemas : Validation.ValidationSchemas) (p : Part)
    : option Zod.ZodSchema :=
  match p with
  | Body => Validation.body schemas
  | Params => Validation.params schemas
  | Query => Validation.query schemas
  end.

Definition partOf (req : Express.Request) (p : Part) : JsValue :=
  match p with
  | Body => Express.body req
  | Params => Express.params req
  | Query => Express.query req
  end.

(** The issues the schema supplied for a part reports on that part of the
    request; none when no schema is supplied or the part conforms. *)
Definition reported (schemas : Validation.ValidationSchemas) (req : Express.Request)
    (p : Part) : list Zod.ZodIssue :=
  match schemaFor schemas p with
  | Some schema =>
      match Zod.safeParse schema (partOf req p) with
      | Zod.SafeParseError error => Zod.errors error
      | Zod.SafeParseSuccess _ => []
      end
  | None => []
  end.

(** A schema is supplied for the part and rejects it. *)
Definition rejects (schemas : Validation.ValidationSchemas) (req : Express.Request)
    (p : Part) : Prop :=
  exists schema error,
    schemaFor schemas p = Some schema /\
    Zod.safeParse schema (partOf req p) = Zod.SafeParseError error.

(** Every supplied schema honours the library's contract. *)
Definition wellBehaved (schemas : Validation.ValidationSchemas) : Prop :=
  forall p schema, schemaFor schemas p = Some schema -> Zod.reportsIssues schema.

(** The entry an issue of a part is expected to become. *)
Definition fieldErrorOf (p : Part) (issue : Zod.ZodIssue) : Validation.FieldError :=
  {| Validation.field :=
       partName p +:+ "." +:+ join "." (map Zod.toString (Zod.path issue));
     Validation.message := Zod.message issue |}.

Definition partErrors (schemas : Validation.ValidationSchemas) (req : Express.Request)
    (p : Part) : list Validation.FieldError :=
  map (fieldErrorOf p) (reported schemas req p).

(** What the part holds after the middleware ran. *)
Definition partAfter (schemas : Validation.ValidationSchemas) (req : Express.Request)
    (p : Part) : JsValue :=
  match schemaFor schemas p with
  | Some schema =>
      match Zod.safeParse schema (partOf req p) with
      | Zod.SafeParseSuccess data => data
      | Zod.SafeParseError _ => partOf req p
      end
  | None => partOf req p
  end.

(** [z.object({ email: z.string().email(), password: z.string().min(8) })] *)
Definition credentialsSchema : Zod.ZodSchema :=
  Zod.schema
    (Zod.ZodObject [("email", Zod.ZodString [Zod.Email]);
                    ("password", Zod.ZodString [Zod.Min 8])]).

(** [z.object({ id: z.string().min(1) })] *)
Definition idSchema : Zod.ZodSchema :=
  Zod.schema (Zod.ZodObject [("id", Zod.ZodString [Zod.Min 1])]).

Definition freshResponse : Express.Response :=
  {| Express.statusCode := 200; Express.sent := [] |}.

Definition sampleSchemas : Validation.ValidationSchemas :=
  {| Validation.body := Some credentialsSchema;
     Validation.params := Some idSchema;
     Validation.query := None |}.

Definition sampleRequest : Express.Request :=
  {| Express.body := JObj [("email", JStr "not-an-email")];
     Express.params := JObj [("id", JStr "")];
     Express.query := JObj [("page", JStr "2")] |}.

(** A request whose body is stripped of an unknown key by its schema while
    its params are rejected. *)
Definition strippingSchemas : Validation.ValidationSchemas :=
  {| Validation.body := Some idSchema;
     Validation.params := Some credentialsSchema;
     Validation.query := None |}.

Definition strippedRequest : Express.Request :=
  {| Express.body := JObj [("id", JStr "42"); ("admin", JBool true)];
     Express.params := JObj [];
     Express.query := JObj [("page", JStr "2")] |}.

(** The request of the specification's example scenario. *)
Definition credentialsOnly : Validation.ValidationSchemas :=
  {| Validation.body := Some credentialsSchema;
     Validation.params := None;
     Validation.query := None |}.


End Parts.

(** ** The parts of a documentation block *)

Module EndpointDoc.
Import DocHelpers.

(** The lines from the opening of the block to the tags. *)
Definition operationHead (config : EndpointConfig) : string :=
  nl +:+ "/**" +:+ nl +:+
  " * @swagger" +:+ nl +:+
  " * " +:+ path config +:+ ":" +:+ nl +:+
  " *   " +:+ toLowerCase (method config) +:+ ":" +:+ nl +:+
  " *     summary: " +:+ summary config +:+ nl +:+
  " *     description: " +:+ orString (description config) (summary config) +:+ nl +:+
  " *     tags: [" +:+ join ", " (tags config) +:+ "]".

(** The security requirement [security: [{ bearerAuth: [] }]], in the
    block style of YAML. *)
Definition securityEntry : string :=
  nl +:+ " *     security:" +:+ nl +:+ " *       - bearerAuth: []".

(** The bearer-auth flag of an operation is set. *)
Definition bearerAuthSet (config : EndpointConfig) : bool :=
  match auth config with
  | Some flag => flag
  | None => false
  end.

Definition requestBodyBlock (config : EndpointConfig) : string :=
  match body config with
  | Some EmptyString | None => ""
  | Some schemaName =>
      nl +:+ " *     requestBody:" +:+ nl +:+
      " *       required: true" +:+ nl +:+
      " *       content:" +:+ nl +:+
      " *         application/json:" +:+ nl +:+
      " *           schema:" +:+ nl +:+
      " *             $ref: '#/components/schemas/" +:+ schemaName +:+ "'"
  end.

(** The response entry of a status code: a reference to the shared
    response component of that code. *)
Definition responseEntry (code : Z) : string :=
  nl +:+ " *       " +:+ pretty code +:+ ":" +:+ nl +:+
  " *         $ref: '#/components/responses/" +:+ pretty code +:+ "'".

(** A block with the given security part and response codes. *)
Definition blockWith (config : EndpointConfig) (security : string) (codes : list Z)
    : string :=
  operationHead config +:+ security +:+ requestBodyBlock config +:+ nl +:+
  " *     responses:" +:+ join "" (map responseEntry codes) +:+ nl +:+
  " */".

(** The status codes a configuration declares. *)
Definition declaredCodes (config : EndpointConfig) : list Z :=
  match responses config with
  | Some codes => codes
  | None => []
  end.

(** The text holds the response entry of the code. *)
Definition documents (doc : string) (code : Z) : Prop :=
  exists before after, doc = before +:+ responseEntry code +:+ after.

(** The shared response component a reference resolves to. *)
Definition standardResponse (code : Z) : option Docs.ResponseTemplate :=
  snd <$> find (fun entry => Z.eqb (fst entry) code) Docs.StandardResponses.

(** A configuration with every optional property absent. *)
Definition minimalConfig (m p s : string) (t : list string) : EndpointConfig :=
  {| method := m; path := p; summary := s; description := None; tags := t;
     auth := None; body := None; responses := None |}.


Definition healthConfig : EndpointConfig :=
  minimalConfig "GET" "/api/health" "Health check" ["Health"].

(** A configuration declaring a status code outside the standard ones. *)
Definition teapotConfig : EndpointConfig :=
  {| method := "GET"; path := "/api/teapot"; summary := "Brew"; description := None;
     tags := []; auth := None; body := None; responses := Some [418%Z] |}.

(** GET [/profile] under the base path [/users], with bearer
    authentication and the responses 200 and 401. *)
Definition profileConfig : EndpointConfig :=
  {| method := "GET";
     path := "/users" +:+ "/profile";
     summary := "Get user profile";
     description := None;
     tags := ["Users"];
     auth := Some true;
     body := None;
     responses := Some [200%Z; 401%Z] |}.

Definition lines (ls : list string) : string := nl +:+ join nl ls.

End EndpointDoc.

(** ** Keys of routes and path items *)

Module Materialized.
Import Decorators.

(** The key a decorated method is registered under, when it has a verb. *)
Definition declaredKey (c : Controller) (r : RouteMetadata) : option (HttpMethod * string) :=
  (fun m => (m, basePath (metadata c) +:+ path r)) <$> httpMethod r.

Definition routeOf (c : Controller) (r : RouteMetadata) : option Route :=
  (fun m => {| routeMethod := m;
               routePath := basePath (metadata c) +:+ path r;
               chain := handlerChain r |}) <$> httpMethod r.

Definition routeKey (r : Route) : HttpMethod * string := (routeMethod r, routePath r).

(** The verb key of a path item. *)
Definition verbKey (m : HttpMethod) : string := DocHelpers.toLowerCase (methodName m).

(** The one-step update of the path document. *)
Definition addPathItem (c : Controller) (prefix : string)
    (acc : gmap string (gmap string Operation)) (r : RouteMetadata)
    : gmap string (gmap string Operation) :=
  match httpMethod r with
  | Some m =>
      let fullPath := prefix +:+ basePath (metadata c) +:+ path r in
      <[fullPath := <[verbKey m := operationOf r]> (default ∅ (acc !! fullPath))]> acc
  | None => acc
  end.

(** The path document has an operation under the path and verb keys. *)
Definition hasOperation (acc : gmap string (gmap string Operation))
    (p verb : string) : Prop :=
  exists item, acc !! p = Some item /\ is_Some (item !! verb).

Definition plainMethod (name : string) (m : option HttpMethod) (p : string)
    : RouteMetadata :=
  {| handlerRef := name; httpMethod := m; path := p; middlewares := [];
     validation := None; docFields := None |}.

(** A controller declaring GET [/users] twice, a method without verb in
    between. *)
Definition duplicateController : Controller :=
  {| metadata := {| basePath := "/api"; classTags := [] |};
     methods :=
       [ plainMethod "listUsers" (Some GET) "/users";
         plainMethod "helper" None "/users";
         plainMethod "createUser" (Some POST) "/users";
         plainMethod "listUsersAgain" (Some GET) "/users" ] |}.

(** The controller of the specification's example scenario. *)
Definition profileController : Controller :=
  {| metadata := {| basePath := "/users"; classTags := [] |};
     methods :=
       [ {| handlerRef := "getProfile";
            httpMethod := Some GET;
            path := "/profile";
            middlewares := ["auth"];
            validation := None;
            docFields :=
              Some {| summary := Some "Get user profile";
                      description := None;
                      tags := ["Users"];
                      responses := [(200%Z, "Profile retrieved successfully");
                                    (401%Z, "Unauthorized")];
                      bearerAuth := true |} |} ] |}.

End Materialized.

(** ** Further sample requests *)

Module Samples.
Import Parts.

(** A request every schema of [sampleSchemas] accepts; the body carries a
    key the schema does not know. *)
Definition acceptedRequest : Express.Request :=
  {| Express.body := JObj [("email", JStr "ada@example.com");
                           ("password", JStr "correct horse");
                           ("remember", JBool true)];
     Express.params := JObj [("id", JStr "42")];
     Express.query := JObj [("page", JStr "2")] |}.

(** A request without a parsed body, as when no body parser ran. *)
Definition bodylessRequest : Express.Request :=
  {| Express.body := JUndefined; Express.params := JObj []; Express.query := JObj [] |}.

(** The entry a response payload must hold for a field to be listed. *)
Definition hasPartPrefix (e : Validation.FieldError) : Prop :=
  exists p rest, Validation.field e = partName p +:+ "." +:+ rest.

End Samples.

(** ** Variants of a documentation configuration *)

Module ConfigVariants.
Import DocHelpers EndpointDoc.

(** The configuration with its empty description, empty body and false
    bearer-auth flag removed. *)
Definition withoutFalsy (config : EndpointConfig) : EndpointConfig :=
  {| method := method config;
     path := path config;
     summary := summary config;
     description :=
       match description config with
       | Some EmptyString => None
       | other => other
       end;
     tags := tags config;
     auth := match auth config with Some false => None | other => other end;
     body := match body config with Some EmptyString => None | other => other end;
     responses := responses config |}.

Definition withResponses (codes : option (list Z)) (config : EndpointConfig)
    : EndpointConfig :=
  {| method := method config; path := path config; summary := summary config;
     description := description config; tags := tags config; auth := auth config;
     body := body config; responses := codes |}.

Definition withMethod (m : string) (config : EndpointConfig) : EndpointConfig :=
  {| method := m; path := path config; summary := summary config;
     description := description config; tags := tags config; auth := auth config;
     body := body config; responses := responses config |}.

(** The resource name with its first character in upper case. *)
Definition capitalized (resource : string) : string :=
  match resource with
  | EmptyString => EmptyString
  | String c rest => String (if inRange "a" "z" c then ascii_of_N (N_of_ascii c - 32) else c) rest
  end.

(** The request body part naming a schema; nothing for the empty name. *)
Definition requestBodyRef (schema : string) : string :=
  match schema with
  | EmptyString => ""
  | String _ _ =>
      nl +:+ " *     requestBody:" +:+ nl +:+
      " *       required: true" +:+ nl +:+
      " *       content:" +:+ nl +:+
      " *         application/json:" +:+ nl +:+
      " *           schema:" +:+ nl +:+
      " *             $ref: '#/components/schemas/" +:+ schema +:+ "'"
  end.

(** The name is empty or starts with an ASCII character. *)
Definition asciiInitial (resource : string) : Prop :=
  match resource with
  | EmptyString => True
  | String c _ => (N_of_ascii c < 128)%N
  end.

(** A block tagged with the capitalized resource, holding the bearer
    security requirement, the given request body part, and response codes
    that are all defined among the shared responses. *)
Definition isCrudBlock (resource : string) (requestBody : string)
    (block : string) : Prop :=
  exists config codes,
    block = blockWith config securityEntry codes /\
    tags config = [capitalized resource] /\
    requestBodyBlock config = requestBody /\
    codes <> [] /\
    Forall (fun code => is_Some (standardResponse code)) codes.

(** The block opens with the entry of the path and verb. *)
Definition opensWith (block : string) (key : string * string) : Prop :=
  exists rest,
    block = nl +:+ "/**" +:+ nl +:+ " * @swagger" +:+ nl +:+
            " * " +:+ fst key +:+ ":" +:+ nl +:+
            " *   " +:+ snd key +:+ ":" +:+ rest.

End ConfigVariants.

(** ** Reading the outcome of [env-config.ts] *)

Module EnvReport.
Import EnvConfig.

(** The environment file the module looks for. *)
Definition envFileOf (vars : ProcessEnv) : string :=
  ".env." +:+ DocHelpers.orString (getenv "NODE_ENV" vars) "dev".

(** [process.env] once the environment file, if there is one, is loaded. *)
Definition loadedVars (host : Host) (vars : ProcessEnv) : ProcessEnv :=
  if existsSync host (envFileOf vars) then dotenvConfig host (envFileOf vars) vars
  else vars.

(** The environment name the later messages use. *)
Definition environmentName (vars : ProcessEnv) : string :=
  DocHelpers.orString (getenv "NODE_ENV" vars) "development".

Definition startsWith (prefix key : string) : Prop :=
  exists rest, key = prefix +:+ rest.

(** A variable that is neither declared by the schema, nor a known system
    variable, nor named with one of the four ignored prefixes. *)
Definition isUnused (host : Host) (key : string) : Prop :=
  ~ In key (shapeKeys host) /\
  ~ In key systemVars /\
  ~ startsWith "npm_" key /\
  ~ startsWith "MSYSTEM" key /\
  ~ startsWith "MINGW" key /\
  ~ startsWith "WT_" key.

Definition notFoundWarning (envFile : string) : Level * string :=
  (Warn, "⚠️ Warning: Environment file " +:+ dquote +:+ envFile +:+ dquote +:+
         " not found. Using defaults.").

Definition loadedLog (name : string) : Level * string :=
  (Log, "Loaded environment: .env." +:+ name).

(** The line printed once the environment file is loaded. *)
Definition fileLoadedLog (envFile : string) (nodeEnv : option string) : Level * string :=
  (Log, "✅ Loaded environment: " +:+ envFile +:+ nl +:+
        "NODE_ENV: " +:+ interpolate nodeEnv).

(** The first line the module prints: about the environment file, loaded
    or not found. *)
Definition fileLine (host : Host) (vars : ProcessEnv) : Level * string :=
  if existsSync host (envFileOf vars) then
    fileLoadedLog (envFileOf vars) (getenv "NODE_ENV" (loadedVars host vars))
  else notFoundWarning (envFileOf vars).

Definition missingError (name : string) (keys : list string) : Level * string :=
  (Error, "❌ Missing environment variables in " +:+ dquote +:+ name +:+ dquote +:+
          " .env file:" +:+ nl +:+ join ", " keys).

Definition unusedWarning (keys : list string) : Level * string :=
  (Warn, "⚠️ Warning: Unused environment variables detected: " +:+ join ", " keys).

(** A host without environment file, whose schema requires
    [DATABASE_URL] and [PORT]. *)
Definition bareHost : Host :=
  {| existsSync := fun _ => false;
     dotenvConfig := fun _ vars => vars;
     envSchema :=
       Zod.schema (Zod.ZodObject [("DATABASE_URL", Zod.ZodString [Zod.Min 1]);
                                  ("PORT", Zod.ZodString [])]);
     shapeKeys := ["DATABASE_URL"; "PORT"];
     formatKeys := fun error =>
       "_errors" ::
       flat_map (fun issue =>
                   match Zod.path issue with
                   | Zod.Key k :: _ => [k]
                   | _ => []
                   end)
                (Zod.errors error) |}.

Definition completeVars : ProcessEnv :=
  [("PATH", "/usr/bin"); ("DATABASE_URL", "postgres://localhost/app");
   ("npm_config_cache", "/tmp"); ("PORT", "3000"); ("SENTRY_DSN", "x");
   ("Path", "C:/Windows")].

Definition incompleteVars : ProcessEnv :=
  [("PATH", "/usr/bin"); ("PORT", "3000"); ("SENTRY_DSN", "x")].

End EnvReport.

(** ** Counting entries per field *)

Module EntryCount.

(** [z.object({ email: z.string().min(8).email() })]: one field, two
    checks. *)
Definition twoChecksSchema : Zod.ZodSchema :=
  Zod.schema (Zod.ZodObject [("email", Zod.ZodString [Zod.Min 8; Zod.Email])]).

Definition twoChecksSchemas : Validation.ValidationSchemas :=
  {| Validation.body := Some twoChecksSchema;
     Validation.params := None;
     Validation.query := None |}.

(** A body whose only field fails both checks. *)
Definition shortEmailRequest : Express.Request :=
  {| Express.body := JObj [("email", JStr "abc")];
     Express.params := JObj [];
     Express.query := JObj [] |}.

(** The errors array holds one entry per failed field: no field is listed
    twice. *)
Definition oneEntryPerField (errors : list Validation.FieldError) : Prop :=
  List.NoDup (map Validation.field errors).

End EntryCount.

(** ** Operation entries *)

Module OperationDocs.
Import DocHelpers.

(** What a documentation block says about one operation. *)
Record OperationDoc : Type :=
  { docPath : string;
    docVerb : string;
    docSummary : string;
    docDescription : string;
    docTags : list string;
    docSecurity : bool;
    docRequestBody : option string;
    docResponses : list Z }.

(** The text made of the given lines, each on a line of its own. *)
Definition linesOf (ls : list string) : string :=
  fold_right (fun line rest => nl +:+ line +:+ rest) "" ls.

(** The two lines of a response entry. *)
Definition entryLines (code : Z) : list string :=
  [ " *       " +:+ pretty code +:+ ":";
    " *         $ref: '#/components/responses/" +:+ pretty code +:+ "'" ].

(** The annotation block of an operation: path, verb, summary, description
    and tags, then the bearer security requirement and the request body when
    there are any, then the responses section. *)
Definition render (op : OperationDoc) : string :=
  linesOf
    ([ "/**";
       " * @swagger";
       " * " +:+ docPath op +:+ ":";
       " *   " +:+ docVerb op +:+ ":";
       " *     summary: " +:+ docSummary op;
       " *     description: " +:+ docDescription op;
       " *     tags: [" +:+ join ", " (docTags op) +:+ "]" ] ++
     (if docSecurity op
      then [" *     security:"; " *       - bearerAuth: []"]
      else []) ++
     match docRequestBody op with
     | Some schemaName =>
         [ " *     requestBody:";
           " *       required: true";
           " *       content:";
           " *         application/json:";
           " *           schema:";
           " *             $ref: '#/components/schemas/" +:+ schemaName +:+ "'" ]
     | None => []
     end ++
     [" *     responses:"] ++
     flat_map entryLines (docResponses op) ++
     [" */"]).


(** A valid document: the block of an operation that has at least one
    response, as OpenAPI requires of an operation. *)
Definition validDocument (doc : string) : Prop :=
  exists op, doc = render op /\ docResponses op <> [].


End OperationDocs.

(** * Properties of the validation middleware *)

Section ValidationMiddleware.
Import Parts.

Implicit Types (schemas : Validation.ValidationSchemas)
               (req : Express.Request) (res : Express.Response).

Local Abbreviation run := Validation.validateRequestEnhanced.

(** The middleware in closed form: the request after parsing, the
    collected entries, and the branch taken on [errors.length]. *)
Lemma validateRequestEnhanced_unfold schemas req res :
  run schemas req res =
  let errors := partErrors schemas req Body ++ partErrors schemas req Params ++
                partErrors schemas req Query in
  let req' := {| Express.body := partAfter schemas req Body;
                 Express.params := partAfter schemas req Params;
                 Express.query := partAfter schemas req Query |} in
  if 0 <? length errors then
    {| Express.request := req';
       Express.response :=
         Express.json (Validation.errorPayload errors) (Express.status 400 res);
       Express.nextCalls := 0 |}
  else
    {| Express.request := req'; Express.response := res; Express.nextCalls := 1 |}.
Proof.
  destruct schemas as [sb sp sq], req as [b p q].
  unfold Validation.validateRequestEnhanced, partErrors, partAfter, reported; cbn.
  destruct sb as [sb|], sp as [sp|], sq as [sq|]; cbn;
    repeat match goal with
           | |- context [Zod.safeParse ?s ?v] => destruct (Zod.safeParse s v); cbn
           end;
    rewrite ?app_nil_r, <- ?List.app_assoc; reflexivity.
Qed.

Lemma schema_reportsIssues (t : Zod.ZodType) : Zod.reportsIssues (Zod.schema t).
Proof.
  intros v error; simpl.
  destruct (Zod.parseType t [] v) as [[|issue issues] data]; intros H.
  - discriminate H.
  - injection H as <-. discriminate.
Qed.

Lemma rejects_reported schemas req p :
  wellBehaved schemas -> rejects schemas req p -> reported schemas req p <> [].
Proof.
  intros Hwb (schema & error & Hs & Hparse).
  unfold reported. rewrite Hs, Hparse. exact (Hwb p schema Hs _ _ Hparse).
Qed.

Lemma reported_rejects schemas req p :
  reported schemas req p <> [] -> rejects schemas req p.
Proof.
  unfold reported, rejects. intros H.
  destruct (schemaFor schemas p) as [schema|]; [|congruence].
  destruct (Zod.safeParse schema (partOf req p)) as [data|error] eqn:Hparse; [congruence|].
  eauto.
Qed.

Lemma partErrors_length schemas req p :
  length (partErrors schemas req p) = length (reported schemas req p).
Proof. apply length_map. Qed.

(** The collected array is non-empty as soon as some part has issues. *)
Lemma reported_has_errors schemas req :
  (exists p, reported schemas req p <> []) ->
  (0 <? length (partErrors schemas req Body ++ partErrors schemas req Params ++
                partErrors schemas req Query)) = true.
Proof.
  intros [p Hne]. apply Nat.ltb_lt.
  rewrite !length_app, !partErrors_length.
  destruct p; destruct (reported schemas req _) eqn:E in Hne; try congruence;
    rewrite E; simpl; lia.
Qed.

Lemma rejected_has_errors schemas req :
  wellBehaved schemas -> (exists p, rejects schemas req p) ->
  (0 <? length (partErrors schemas req Body ++ partErrors schemas req Params ++
                partErrors schemas req Query)) = true.
Proof.
  intros Hwb [p Hrej]. apply reported_has_errors.
  exists p. exact (rejects_reported _ _ _ Hwb Hrej).
Qed.

Lemma sampleSchemas_wellBehaved : wellBehaved sampleSchemas.
Proof.
  intros p schema H.
  destruct p; simpl in H; try discriminate; injection H as <-; apply schema_reportsIssues.
Qed.

Lemma sampleRequest_rejected : exists p, rejects sampleSchemas sampleRequest p.
Proof. exists Body. unfold rejects. simpl. eexists _, _. split; reflexivity. Qed.



(** C1, as stated, fails: the errors array does not hold one entry per
    failed field.  The single field [email] of [shortEmailRequest] fails
    the two checks of its schema, and the payload lists [body.email]
    twice, once per failed check. *)
Lemma one_field_two_entries :
  exists errors : list Validation.FieldError,
    Express.sent
      (Express.response
         (run EntryCount.twoChecksSchemas EntryCount.shortEmailRequest freshResponse)) =
    [Validation.errorPayload errors] /\
    errors =
    [ {| Validation.field := "body.email";
         Validation.message := "String must contain at least 8 character(s)" |};
      {| Validation.field := "body.email"; Validation.message := "Invalid email" |} ] /\
    ~ EntryCount.oneEntryPerField errors.
Proof.
  eexists. split; [reflexivity|]. split; [reflexivity|].
  unfold EntryCount.oneEntryPerField. simpl. intros Hnodup.
  inversion Hnodup as [|field fields Hnotin _]. apply Hnotin. left. reflexivity.
Qed.

(** C1, amended. When at least one supplied schema rejects its part of the
    request, the middleware sends exactly one response, the object
    [{ success: false, message: "Validation error", errors }]; the errors
    array holds one [{ field, message }] entry per issue reported (a field
    that fails several checks is listed once per failed check), and the
    issues of every rejected part (body, params and query alike) are in
    it. *)
Theorem validation_failure_aggregated schemas req res :
  wellBehaved schemas ->
  (exists p, rejects schemas req p) ->
  exists errors : list Validation.FieldError,
    Express.sent (Express.response (run schemas req res)) =
    Express.sent res ++
    [JObj [("success", JBool false);
           ("message", JStr "Validation error");
           ("errors",
            JArr (map (fun e => JObj [("field", JStr (Validation.field e));
                                      ("message", JStr (Validation.message e))])
                      errors))]] /\
    length errors =
    length (reported schemas req Body) + length (reported schemas req Params) +
    length (reported schemas req Query) /\
    (forall p issue, In issue (reported schemas req p) -> In (fieldErrorOf p issue) errors) /\
    (forall e, In e errors ->
               exists p issue, In issue (reported schemas req p) /\ e = fieldErrorOf p issue).
Proof.
  intros Hwb Hrej.
  exists (partErrors schemas req Body ++ partErrors schemas req Params ++
          partErrors schemas req Query).
  rewrite validateRequestEnhanced_unfold. cbv zeta.
  rewrite (rejected_has_errors _ _ Hwb Hrej). simpl.
  split; [reflexivity|]. split; [|split].
  - rewrite !length_app, !partErrors_length. lia.
  - intros p issue Hin. rewrite !in_app_iff.
    destruct p; [left | right; left | right; right]; apply in_map; exact Hin.
  - intros e. rewrite !in_app_iff. unfold partErrors. rewrite !in_map_iff.
    intros [(i & <- & Hi) | [(i & <- & Hi) | (i & <- & Hi)]]; eauto.
Qed.

Lemma validation_failure_aggregated_witness :
  exists errors : list Validation.FieldError,
    Express.sent (Express.response (run sampleSchemas sampleRequest freshResponse)) =
    [JObj [("success", JBool false);
           ("message", JStr "Validation error");
           ("errors",
            JArr (map (fun e => JObj [("field", JStr (Validation.field e));
                                      ("message", JStr (Validation.message e))])
                      errors))]] /\
    length errors = 3.
Proof.
  destruct (validation_failure_aggregated sampleSchemas sampleRequest freshResponse
              sampleSchemas_wellBehaved sampleRequest_rejected)
    as (errors & Hsent & Hlen & _).
  exists errors. split; [exact Hsent | exact Hlen].
Defined.

(** C2. If any supplied schema fails on its part of the request, the
    middleware responds with status 400 and does not call [next()]. *)
Theorem validation_failure_blocks_handler schemas req res :
  wellBehaved schemas ->
  (exists p, rejects schemas req p) ->
  Express.statusCode (Express.response (run schemas req res)) = 400%Z /\
  length (Express.sent (Express.response (run schemas req res))) =
  S (length (Express.sent res)) /\
  Express.nextCalls (run schemas req res) = 0.
Proof.
  intros Hwb Hrej.
  rewrite validateRequestEnhanced_unfold. cbv zeta.
  rewrite (rejected_has_errors _ _ Hwb Hrej). simpl.
  rewrite length_app. simpl. repeat split; lia.
Qed.

Lemma validation_failure_blocks_handler_witness :
  Express.statusCode (Express.response (run sampleSchemas sampleRequest freshResponse))
  = 400%Z /\
  length (Express.sent (Express.response (run sampleSchemas sampleRequest freshResponse)))
  = 1 /\
  Express.nextCalls (run sampleSchemas sampleRequest freshResponse) = 0.
Proof.
  exact (validation_failure_blocks_handler sampleSchemas sampleRequest freshResponse
           sampleSchemas_wellBehaved sampleRequest_rejected).
Defined.

(** C10. After the middleware ran, a part without a schema is unchanged, a
    part whose schema parsed it holds the parsed result, and a part whose
    schema rejected it is unchanged; this is so whatever happens to the
    other parts, so a request answered with 400 may already carry parsed
    values, as [strippedRequest] does: its body lost the unknown key while
    its params were rejected. *)
Theorem parsed_parts_overwritten :
  (forall schemas req res p,
      partOf (Express.request (run schemas req res)) p =
      match schemaFor schemas p with
      | None => partOf req p
      | Some schema =>
          match Zod.safeParse schema (partOf req p) with
          | Zod.SafeParseSuccess data => data
          | Zod.SafeParseError _ => partOf req p
          end
      end) /\
  (let ex := run strippingSchemas strippedRequest freshResponse in
   Express.statusCode (Express.response ex) = 400%Z /\
   Express.nextCalls ex = 0 /\
   Express.body (Express.request ex) = JObj [("id", JStr "42")] /\
   Express.body (Express.request ex) <> Express.body strippedRequest /\
   Express.params (Express.request ex) = Express.params strippedRequest /\
   Express.query (Express.request ex) = Express.query strippedRequest).
Proof.
  split.
  - intros schemas req res p. rewrite validateRequestEnhanced_unfold. cbv zeta.
    destruct (0 <? length _); destruct p; reflexivity.
  - vm_compute. repeat split; try reflexivity. discriminate.
Qed.



End ValidationMiddleware.

(** * Properties of the documentation template *)

Section StringFacts.

Lemma append_assoc (s1 s2 s3 : string) : (s1 +:+ s2) +:+ s3 = s1 +:+ (s2 +:+ s3).
Proof.
  induction s1 as [|c s1 IH]; [reflexivity|].
  change (String c ((s1 +:+ s2) +:+ s3) = String c (s1 +:+ (s2 +:+ s3))).
  now rewrite IH.
Qed.

Lemma append_nil_r (s : string) : s +:+ "" = s.
Proof.
  induction s as [|c s IH]; [reflexivity|].
  change (String c (s +:+ "") = String c s). now rewrite IH.
Qed.

End StringFacts.

Section DocumentationTemplate.
Import DocHelpers EndpointDoc.

Implicit Types (config : EndpointConfig).

(** The template, block by block. *)
Lemma endpoint_blocks config :
  endpoint config =
  blockWith config
    (if bearerAuthSet config then securityEntry else "")
    (match responses config with
     | Some codes => codes
     | None => [200%Z; 400%Z; 500%Z]
     end).
Proof.
  unfold endpoint, blockWith, operationHead, bearerAuthSet, requestBodyBlock, securityEntry.
  destruct (auth config) as [[]|], (body config) as [[|c name]|];
    rewrite ?append_assoc; reflexivity.
Qed.

Lemma documents_entry before code after :
  documents (before +:+ responseEntry code +:+ after) code.
Proof. exists before, after. reflexivity. Qed.

Lemma join_entries_split (pre post : list Z) (code : Z) :
  join "" (map responseEntry (pre ++ code :: post)) =
  join "" (map responseEntry pre) +:+ responseEntry code +:+
  join "" (map responseEntry post).
Proof.
  unfold join. induction pre as [|c pre IH].
  - destruct post; [rewrite append_nil_r|]; reflexivity.
  - change ((c :: pre) ++ code :: post) with (c :: (pre ++ code :: post)).
    change (map responseEntry (c :: ?l)) with (responseEntry c :: map responseEntry l).
    destruct pre as [|c' pre].
    + change (String.concat "" [responseEntry c]) with (responseEntry c).
      change (String.concat "" (responseEntry c :: map responseEntry ([] ++ code :: post)))
        with (responseEntry c +:+ "" +:+
              String.concat "" (map responseEntry ([] ++ code :: post))).
      rewrite IH. reflexivity.
    + change (String.concat "" (responseEntry c :: map responseEntry ((c' :: pre) ++ code :: post)))
        with (responseEntry c +:+ "" +:+
              String.concat "" (map responseEntry ((c' :: pre) ++ code :: post))).
      change (String.concat "" (responseEntry c :: map responseEntry (c' :: pre)))
        with (responseEntry c +:+ "" +:+ String.concat "" (map responseEntry (c' :: pre))).
      rewrite IH, !append_assoc. reflexivity.
Qed.

(** A code among those of a block has its entry in the text. *)
Lemma blockWith_documents config security codes code :
  In code codes -> documents (blockWith config security codes) code.
Proof.
  intros Hin. apply in_split in Hin as (pre & post & ->).
  unfold blockWith. rewrite join_entries_split.
  exists (operationHead config +:+ security +:+ requestBodyBlock config +:+ nl +:+
          " *     responses:" +:+ join "" (map responseEntry pre)),
         (join "" (map responseEntry post) +:+ nl +:+ " */").
  rewrite !append_assoc. reflexivity.
Qed.

(** C4, as stated, fails twice.  With [responses] absent the block
    documents the status code 200, which the configuration never declared:
    the codes are defaulted, not omitted.  And the entry of a declared code
    is a reference, with no description of its own: for the code 418 no
    shared component, hence no description, stands behind it. *)
Lemma undeclared_codes_defaulted :
  (responses healthConfig = None /\
   ~ (forall code, documents (endpoint healthConfig) code ->
                   In code (declaredCodes healthConfig))) /\
  (declaredCodes teapotConfig = [418%Z] /\
   documents (endpoint teapotConfig) 418 /\
   responseEntry 418 =
     lines [" *       418:"; " *         $ref: '#/components/responses/418'"] /\
   standardResponse 418 = None).
Proof.
  split; split; try reflexivity.
  - intros H. apply (H 200%Z). rewrite endpoint_blocks.
    apply blockWith_documents. simpl. auto.
  - split; [|split; reflexivity].
    rewrite endpoint_blocks. apply blockWith_documents. simpl. auto.
Qed.

(** C4, amended. The block holds one response entry per status code of
    [responses], in order and nothing else, each a reference to the shared
    response component of its code; when [responses] is absent the codes
    default to 200, 400 and 500.  The shared components of the seven
    standard codes, the defaults among them, carry a description. *)
Theorem response_entries_per_code :
  (forall config codes,
      responses config = Some codes ->
      endpoint config =
      blockWith config (if bearerAuthSet config then securityEntry else "") codes /\
      forall code, In code codes -> documents (endpoint config) code) /\
  (forall config,
      responses config = None ->
      endpoint config =
      blockWith config (if bearerAuthSet config then securityEntry else "")
                [200%Z; 400%Z; 500%Z]) /\
  (forall code,
      In code [200%Z; 201%Z; 400%Z; 401%Z; 403%Z; 404%Z; 500%Z] ->
      exists template,
        standardResponse code = Some template /\ Docs.description template <> "").
Proof.
  split; [|split].
  - intros config codes Hcodes. rewrite endpoint_blocks, Hcodes.
    split; [reflexivity|]. intros code. apply blockWith_documents.
  - intros config Hcodes. rewrite endpoint_blocks, Hcodes. reflexivity.
  - intros code Hin. simpl in Hin.
    repeat (destruct Hin as [<- | Hin]; [eexists; split; [reflexivity | discriminate]|]).
    contradiction.
Qed.

(** C6. The block holds the security requirement for bearer
    authentication exactly when the bearer-auth flag of the operation is
    set, and no security part otherwise.  For GET [/profile] under
    [/users] with the flag set and the responses 200 and 401, the block
    is the entry of [/users/profile], method [get], with that security
    requirement and exactly two response entries. *)
Theorem security_entry_iff_bearer_auth :
  (forall config,
      endpoint config =
      blockWith config
        (if bearerAuthSet config then nl +:+ " *     security:" +:+ nl +:+
                                      " *       - bearerAuth: []"
         else "")
        (default [200%Z; 400%Z; 500%Z] (responses config))) /\
  endpoint profileConfig =
  lines [ "/**";
          " * @swagger";
          " * /users/profile:";
          " *   get:";
          " *     summary: Get user profile";
          " *     description: Get user profile";
          " *     tags: [Users]";
          " *     security:";
          " *       - bearerAuth: []";
          " *     responses:";
          " *       200:";
          " *         $ref: '#/components/responses/200'";
          " *       401:";
          " *         $ref: '#/components/responses/401'";
          " */" ].
Proof.
  split.
  - intros config. rewrite endpoint_blocks. destruct (responses config); reflexivity.
  - reflexivity.
Qed.





Lemma chars_append (s1 s2 : string) :
  list_ascii_of_string (s1 +:+ s2) = list_ascii_of_string s1 ++ list_ascii_of_string s2.
Proof.
  induction s1 as [|c s1 IH]; [reflexivity|].
  change (c :: list_ascii_of_string (s1 +:+ s2) =
          c :: (list_ascii_of_string s1 ++ list_ascii_of_string s2)).
  now rewrite IH.
Qed.

Lemma in_linesOf (line : string) (ls : list string) (ch : ascii) :
  In line ls -> In ch (list_ascii_of_string line) ->
  In ch (list_ascii_of_string (OperationDocs.linesOf ls)).
Proof.
  intros Hline Hch. induction ls as [|l ls IH]; [contradiction|].
  unfold OperationDocs.linesOf. cbn [fold_right]. rewrite !chars_append, !in_app_iff.
  destruct Hline as [-> | Hline]; [right; left; exact Hch | right; right; now apply IH].
Qed.

(** The block of an operation with a response holds a reference, hence a
    dollar sign. *)
Lemma render_has_reference (op : OperationDocs.OperationDoc) :
  OperationDocs.docResponses op <> [] ->
  In "$"%char (list_ascii_of_string (OperationDocs.render op)).
Proof.
  intros Hcodes. destruct (OperationDocs.docResponses op) as [|code codes] eqn:E;
    [congruence|].
  unfold OperationDocs.render. rewrite E.
  apply (in_linesOf (" *         $ref: '#/components/responses/" +:+ pretty code +:+ "'")).
  - rewrite !in_app_iff. do 4 right. left. cbn [flat_map OperationDocs.entryLines].
    right. left. reflexivity.
  - rewrite chars_append, in_app_iff. left. vm_compute. tauto.
Qed.

(** A text without a dollar sign is no valid document. *)
Lemma no_reference_not_valid (doc : string) :
  existsb (Ascii.eqb "$") (list_ascii_of_string doc) = false ->
  ~ OperationDocs.validDocument doc.
Proof.
  intros Hnone (op & Hrender & Hcodes).
  apply render_has_reference in Hcodes. rewrite <- Hrender in Hcodes.
  apply not_true_iff_false in Hnone. apply Hnone, existsb_exists.
  exists "$"%char. split; [exact Hcodes | apply Ascii.eqb_refl].
Qed.


(** An opener directly followed by the closer is no valid document. *)
Example empty_envelope_not_valid :
  ~ OperationDocs.validDocument (nl +:+ "/**" +:+ nl +:+ " * @swagger" +:+ nl +:+ " */").
Proof.
  apply no_reference_not_valid. vm_compute. reflexivity.
Qed.


End DocumentationTemplate.

(** * Properties of the materializers *)

Section Materializers.
Import Decorators Materialized.

Implicit Types (c : Controller) (r : RouteMetadata) (router : Router).

Lemma createRouter_foldl c (l : list RouteMetadata) router :
  foldl (fun router r =>
           match httpMethod r with
           | Some m =>
               register m (basePath (metadata c) +:+ path r) (handlerChain r) router
           | None => router
           end) router l
  = router ++ omap (routeOf c) l.
Proof.
  revert router. induction l as [|r l IH]; intros router; simpl.
  - now rewrite app_nil_r.
  - rewrite IH. unfold routeOf at 2, register.
    destruct (httpMethod r); simpl; [now rewrite <- List.app_assoc | reflexivity].
Qed.

Lemma createRouter_routes c :
  createRouterFromController c = omap (routeOf c) (methods c).
Proof. unfold createRouterFromController. now rewrite createRouter_foldl. Qed.

Lemma elem_of_createRouter c (rt : Route) :
  rt ∈ createRouterFromController c <-> exists r, r ∈ methods c /\ routeOf c r = Some rt.
Proof. rewrite createRouter_routes. apply list_elem_of_omap. Qed.

Lemma generateSwagger_foldl c prefix :
  paths (generateSwaggerFromController c prefix) =
  foldl (addPathItem c prefix) ∅ (methods c).
Proof. reflexivity. Qed.

Lemma hasOperation_addPathItem c prefix acc r p verb :
  hasOperation (addPathItem c prefix acc r) p verb <->
  hasOperation acc p verb \/
  exists m, httpMethod r = Some m /\
            p = prefix +:+ basePath (metadata c) +:+ path r /\ verb = verbKey m.
Proof.
  unfold addPathItem, hasOperation.
  destruct (httpMethod r) as [m|]; [|split; [auto | intros [H | (m & Hm & _)]; [exact H | discriminate]]].
  set (fullPath := prefix +:+ basePath (metadata c) +:+ path r). cbv zeta.
  split.
  - intros (item & Hitem & Hverb).
    destruct (decide (fullPath = p)) as [<-|Hp].
    + rewrite lookup_insert_eq in Hitem. injection Hitem as <-.
      destruct (decide (verbKey m = verb)) as [<-|Hv]; [right; eauto|].
      rewrite lookup_insert_ne in Hverb by exact Hv. left.
      destruct (acc !! fullPath) as [item|]; simpl in Hverb; [eauto|].
      rewrite lookup_empty in Hverb. destruct Hverb; discriminate.
    + rewrite lookup_insert_ne in Hitem by exact Hp. left. eauto.
  - intros [(item & Hitem & Hverb) | (m' & Hm & -> & ->)].
    + destruct (decide (fullPath = p)) as [<-|Hp].
      * eexists. rewrite lookup_insert_eq. split; [reflexivity|].
        rewrite Hitem. simpl.
        destruct (decide (verbKey m = verb)) as [<-|Hv].
        -- rewrite lookup_insert_eq. eauto.
        -- rewrite lookup_insert_ne by exact Hv. exact Hverb.
      * exists item. rewrite lookup_insert_ne by exact Hp. auto.
    + injection Hm as <-. eexists. rewrite lookup_insert_eq. split; [reflexivity|].
      rewrite lookup_insert_eq. eauto.
Qed.

Lemma hasOperation_foldl c prefix (l : list RouteMetadata) acc p verb :
  hasOperation (foldl (addPathItem c prefix) acc l) p verb <->
  hasOperation acc p verb \/
  exists r m, r ∈ l /\ httpMethod r = Some m /\
              p = prefix +:+ basePath (metadata c) +:+ path r /\ verb = verbKey m.
Proof.
  revert acc. induction l as [|r l IH]; intros acc; simpl.
  - split; [auto | intros [H | (r & m & Hin & _)]; [exact H | inversion Hin]].
  - rewrite IH, hasOperation_addPathItem. split.
    + intros [[H | (m & Hm & Hp & Hv)] | (r' & m & Hin & H)].
      * auto.
      * right. exists r, m. split; [left | auto].
      * right. exists r', m. split; [right; exact Hin | exact H].
    + intros [H | (r' & m & Hin & Hm & Hp & Hv)]; [auto|].
      apply elem_of_cons in Hin as [-> | Hin]; [left; right; eauto|].
      right. exists r', m. auto.
Qed.

Lemma elem_of_pathItemKeys (doc : SwaggerFragment) verb p :
  (verb, p) ∈ pathItemKeys doc <-> hasOperation (paths doc) p verb.
Proof.
  unfold pathItemKeys, hasOperation.
  rewrite elem_of_list_to_set, list_elem_of_bind. split.
  - intros ([p' item] & Hin & Hentry). simpl in Hin.
    apply list_elem_of_fmap in Hin as (v & Heq & Hv). injection Heq as -> ->.
    apply elem_of_elements, elem_of_dom in Hv.
    apply elem_of_map_to_list in Hentry. eauto.
  - intros (item & Hitem & Hverb). exists (p, item). split.
    + simpl. apply list_elem_of_fmap. exists verb. split; [reflexivity|].
      now apply elem_of_elements, elem_of_dom.
    + now apply elem_of_map_to_list.
Qed.

Lemma elem_of_mountedRoutes prefix router verb p :
  (verb, p) ∈ mountedRoutes prefix router <->
  exists rt, rt ∈ router /\ verb = verbKey (routeMethod rt) /\ p = prefix +:+ routePath rt.
Proof.
  unfold mountedRoutes. rewrite elem_of_list_to_set, list_elem_of_In, in_map_iff.
  split.
  - intros (rt & Heq & Hin). injection Heq as <- <-.
    exists rt. rewrite list_elem_of_In. auto.
  - intros (rt & Hin & -> & ->). exists rt. rewrite <- list_elem_of_In. auto.
Qed.

Lemma verbKey_inj m1 m2 : verbKey m1 = verbKey m2 -> m1 = m2.
Proof. destruct m1, m2; intros H; try reflexivity; discriminate H. Qed.

(** C3. The pairs of verb and full path a controller's router answers to,
    once mounted under the base path handed to the documentation
    materializer, are exactly the keys of the path items the documentation
    materializer emits for that controller and base path; with the empty
    base path these are the pairs the router materializer registered.
    Verbs are compared through the lower-cased name, which identifies the
    verb. *)
Theorem router_and_docs_agree c (prefix : string) :
  mountedRoutes prefix (createRouterFromController c) =
  pathItemKeys (generateSwaggerFromController c prefix) /\
  list_to_set (map (fun rt => (verbKey (routeMethod rt), routePath rt))
                   (createRouterFromController c)) =
  pathItemKeys (generateSwaggerFromController c "") /\
  (forall m1 m2, verbKey m1 = verbKey m2 -> m1 = m2).
Proof.
  assert (Hgen : forall prefix,
             mountedRoutes prefix (createRouterFromController c) =
             pathItemKeys (generateSwaggerFromController c prefix)).
  { clear prefix. intros prefix. apply set_eq. intros [verb p].
    rewrite elem_of_mountedRoutes, elem_of_pathItemKeys, generateSwagger_foldl,
      hasOperation_foldl.
    split.
    - intros (rt & Hin & -> & ->).
      apply elem_of_createRouter in Hin as (r & Hr & Hroute).
      unfold routeOf in Hroute. destruct (httpMethod r) as [m|] eqn:Hm; [|discriminate].
      injection Hroute as <-. right. exists r, m. auto.
    - intros [(item & Hitem & _) | (r & m & Hr & Hm & -> & ->)].
      + rewrite lookup_empty in Hitem. discriminate.
      + eexists. split; [apply elem_of_createRouter; exists r; split; [exact Hr|]|].
        * unfold routeOf. rewrite Hm. reflexivity.
        * auto. }
  split; [apply Hgen | split; [exact (Hgen "") | exact verbKey_inj]].
Qed.

Lemma routeTable_snoc router (rt : Route) :
  routeTable (router ++ [rt]) = <[routeKey rt := chain rt]> (routeTable router).
Proof. unfold routeTable. now rewrite foldl_snoc. Qed.

Lemma routeTable_app_other router (later : list Route) (k : HttpMethod * string) :
  (forall rt, rt ∈ later -> routeKey rt <> k) ->
  routeTable (router ++ later) !! k = routeTable router !! k.
Proof.
  induction later as [|rt later IH] using rev_ind; intros Hother.
  - now rewrite app_nil_r.
  - rewrite List.app_assoc, routeTable_snoc.
    rewrite lookup_insert_ne by (apply Hother, elem_of_app; right; left).
    apply IH. intros rt' Hin. apply Hother, elem_of_app. now left.
Qed.

(** The route registered last under a key is the one the table holds. *)
Lemma routeTable_last router (rt : Route) (later : list Route) :
  (forall rt', rt' ∈ later -> routeKey rt' <> routeKey rt) ->
  routeTable (router ++ rt :: later) !! routeKey rt = Some (chain rt).
Proof.
  intros Hother.
  change (router ++ rt :: later) with (router ++ [rt] ++ later).
  rewrite List.app_assoc, routeTable_app_other by exact Hother.
  rewrite routeTable_snoc. apply lookup_insert_eq.
Qed.

(** C8. The router holds one registration per method that carries a verb,
    in the order the methods are declared, whatever their keys: a key used
    twice is not an error.  The table the router dispatches from gives,
    for the key of a method, the chain of the last method declared with
    that key.  [duplicateController] declares GET [/users] twice: both are
    registered, and the second one answers. *)
Theorem routes_in_declaration_order_last_wins :
  (forall c,
      map routeKey (createRouterFromController c) = omap (declaredKey c) (methods c)) /\
  (forall c earlier r later m,
      methods c = earlier ++ r :: later ->
      httpMethod r = Some m ->
      (forall r', In r' later ->
                  declaredKey c r' <> Some (m, basePath (metadata c) +:+ path r)) ->
      routeTable (createRouterFromController c) !! (m, basePath (metadata c) +:+ path r)
      = Some (handlerChain r)) /\
  (map routeKey (createRouterFromController duplicateController) =
     [(GET, "/api/users"); (POST, "/api/users"); (GET, "/api/users")] /\
   routeTable (createRouterFromController duplicateController) !! (GET, "/api/users")
   = Some [Handler "listUsersAgain"]).
Proof.
  split; [|split].
  - intros c. rewrite createRouter_routes.
    induction (methods c) as [|r l IH]; [reflexivity|]. simpl.
    unfold routeOf at 1, declaredKey at 1.
    destruct (httpMethod r); simpl; [f_equal|]; exact IH.
  - intros c earlier r later m Hmethods Hm Hlater.
    rewrite createRouter_routes, Hmethods, omap_app. simpl.
    unfold routeOf at 2. rewrite Hm. simpl.
    set (rt := {| routeMethod := m; routePath := _; chain := handlerChain r |}).
    apply (routeTable_last _ rt).
    intros rt' Hin. apply list_elem_of_omap in Hin as (r' & Hr' & Hroute).
    intros Hkey. apply (Hlater r'); [now apply list_elem_of_In|].
    unfold routeOf in Hroute. unfold declaredKey.
    destruct (httpMethod r') as [m'|]; [|discriminate].
    injection Hroute as <-. simpl. f_equal. exact Hkey.
  - split; [reflexivity|].
    rewrite createRouter_routes. simpl.
    change [?a; ?b; ?d] with ([a; b] ++ [d]).
    rewrite routeTable_snoc. exact (lookup_insert_eq _ _ _).
Qed.

(** The example scenario of the specification on the materializers: GET
    [/profile] under [/users] becomes the route GET [/users/profile] and
    the path item [/users/profile], [get], with the bearer security
    requirement and the two declared responses. *)
Example profile_scenario_materialized :
  map routeKey (createRouterFromController profileController) = [(GET, "/users/profile")] /\
  exists op,
    paths (generateSwaggerFromController profileController "") !! "/users/profile"
    = Some {[ "get" := op ]} /\
    security op = Some [[("bearerAuth", [])]] /\
    map fst (opResponses op) = [200%Z; 401%Z].
Proof.
  split; [reflexivity|].
  eexists. rewrite generateSwagger_foldl. simpl. unfold addPathItem. simpl.
  rewrite lookup_insert_eq. split; [reflexivity|]. split; reflexivity.
Qed.

End Materializers.

(** * Further properties of the validation middleware *)

Section ValidationOutcomes.
Import Parts Samples.

Implicit Types (schemas : Validation.ValidationSchemas)
               (req : Express.Request) (res : Express.Response).

Local Abbreviation run := Validation.validateRequestEnhanced.

Local Abbreviation collected schemas req :=
  (partErrors schemas req Body ++ partErrors schemas req Params ++
   partErrors schemas req Query).

Lemma payload_entries_inj (errs1 errs2 : list Validation.FieldError) :
  map Validation.fieldErrorToJs errs1 = map Validation.fieldErrorToJs errs2 ->
  errs1 = errs2.
Proof.
  revert errs2. induction errs1 as [|e1 errs1 IH]; intros [|e2 errs2] H;
    try discriminate H; [reflexivity|].
  cbn [map] in H. injection H as Hfield Hmessage Hrest.
  f_equal; [|now apply IH].
  destruct e1, e2; simpl in *; congruence.
Qed.

(** A payload was sent only in the failure branch, and it holds the
    collected entries. *)
Lemma sent_payload_inv schemas req res errs :
  Express.sent (Express.response (run schemas req res)) =
  Express.sent res ++ [Validation.errorPayload errs] ->
  errs = collected schemas req /\ errs <> [] /\
  Express.nextCalls (run schemas req res) = 0.
Proof.
  rewrite validateRequestEnhanced_unfold. cbv zeta.
  destruct (0 <? length (collected schemas req)) eqn:Hlen; simpl; intros H.
  - apply app_inv_head in H. injection H as H. apply payload_entries_inj in H.
    subst errs. repeat split. intros Hnil. rewrite Hnil in Hlen. discriminate Hlen.
  - apply (f_equal (@length JsValue)) in H. rewrite length_app in H. simpl in H. lia.
Qed.

Lemma in_collected schemas req e :
  In e (collected schemas req) <->
  exists p issue, In issue (reported schemas req p) /\ e = fieldErrorOf p issue.
Proof.
  rewrite !in_app_iff. unfold partErrors. rewrite !in_map_iff. split.
  - intros [(i & <- & Hi) | [(i & <- & Hi) | (i & <- & Hi)]]; eauto.
  - intros (p & issue & Hin & ->).
    destruct p; [left | right; left | right; right]; eauto.
Qed.

Lemma not_rejected_reported schemas req p :
  ~ rejects schemas req p -> reported schemas req p = [].
Proof.
  intros Hno. destruct (reported schemas req p) eqn:E; [reflexivity|].
  exfalso. apply Hno, reported_rejects. rewrite E. discriminate.
Qed.

(** X1. When no supplied schema rejects its part, the middleware calls
    [next()] once and leaves the response as it was: no status is set and
    nothing is sent.  Every part that has a schema then holds exactly what
    that schema parsed it to. *)
Theorem accepted_request_passes_on schemas req res :
  (forall p, ~ rejects schemas req p) ->
  Express.nextCalls (run schemas req res) = 1 /\
  Express.response (run schemas req res) = res /\
  forall p schema,
    schemaFor schemas p = Some schema ->
    Zod.safeParse schema (partOf req p) =
    Zod.SafeParseSuccess (partOf (Express.request (run schemas req res)) p).
Proof.
  intros Hok. rewrite validateRequestEnhanced_unfold. cbv zeta.
  unfold partErrors. rewrite !not_rejected_reported by apply Hok. simpl.
  repeat split. intros p schema Hs.
  assert (Hp : reported schemas req p = []) by apply not_rejected_reported, Hok.
  specialize (Hok p). unfold rejects in Hok.
  destruct p; simpl in *; unfold partAfter; simpl; rewrite Hs;
    (destruct (Zod.safeParse schema _) as [data|error] eqn:Hparse;
     [reflexivity | exfalso; apply Hok; eauto]).
Qed.

Lemma accepted_request_passes_on_witness :
  Express.nextCalls (run sampleSchemas acceptedRequest freshResponse) = 1 /\
  Express.response (run sampleSchemas acceptedRequest freshResponse) = freshResponse /\
  Express.body (Express.request (run sampleSchemas acceptedRequest freshResponse)) =
  JObj [("email", JStr "ada@example.com"); ("password", JStr "correct horse")].
Proof.
  destruct (accepted_request_passes_on sampleSchemas acceptedRequest freshResponse)
    as (Hnext & Hres & _).
  - intros p (schema & error & Hs & Hparse).
    destruct p; simpl in Hs; try discriminate Hs; injection Hs as <-;
      vm_compute in Hparse; discriminate Hparse.
  - split; [exact Hnext | split; [exact Hres | reflexivity]].
Defined.

(** X2. Whatever the schemas and the request, the middleware does exactly
    one of two things: it calls [next()] once and leaves the response
    untouched, or it never calls [next()], sets status 400 and sends one
    payload whose errors array is not empty. *)
Theorem responds_or_passes_on schemas req res :
  (Express.nextCalls (run schemas req res) = 1 /\
   Express.response (run schemas req res) = res) \/
  (Express.nextCalls (run schemas req res) = 0 /\
   Express.statusCode (Express.response (run schemas req res)) = 400%Z /\
   exists errs,
     errs <> [] /\
     Express.sent (Express.response (run schemas req res)) =
     Express.sent res ++ [Validation.errorPayload errs]).
Proof.
  rewrite validateRequestEnhanced_unfold. cbv zeta.
  destruct (0 <? length (collected schemas req)) eqn:Hlen; simpl; [right | left; auto].
  repeat split. exists (collected schemas req). split; [|reflexivity].
  intros Hnil. rewrite Hnil in Hlen. discriminate Hlen.
Qed.

(** X3. [validateRequest] checks the body only: params and query come out
    as they went in, whatever they hold; a body the schema parses is
    replaced by the parsed value and the request passes on; the issues of a
    rejected body become [body.] entries of a 400 response and the body is
    left as it was. *)
Theorem validateRequest_checks_body_only (schema : Zod.ZodSchema) req res :
  let ex := Validation.validateRequest schema req res in
  Express.params (Express.request ex) = Express.params req /\
  Express.query (Express.request ex) = Express.query req /\
  match Zod.safeParse schema (Express.body req) with
  | Zod.SafeParseSuccess data =>
      Express.body (Express.request ex) = data /\
      Express.nextCalls ex = 1 /\ Express.response ex = res
  | Zod.SafeParseError error =>
      Express.body (Express.request ex) = Express.body req /\
      (Zod.errors error = [] \/
       Express.nextCalls ex = 0 /\
       Express.response ex =
       {| Express.statusCode := 400;
          Express.sent :=
            Express.sent res ++
            [Validation.errorPayload (map (fieldErrorOf Body) (Zod.errors error))] |})
  end.
Proof.
  unfold Validation.validateRequest. cbv zeta.
  rewrite validateRequestEnhanced_unfold. cbv zeta.
  unfold partErrors, partAfter, reported. simpl.
  destruct (Zod.safeParse schema (Express.body req)) as [data|error]; simpl.
  - repeat split.
  - rewrite app_nil_r, length_map.
    destruct (Zod.errors error) as [|issue issues]; simpl;
      (split; [reflexivity | split; [reflexivity | split; [reflexivity|]]]).
    + now left.
    + right. split; reflexivity.
Qed.

(** X4. Every entry of a validation payload names its field with the part
    it came from: the field starts with [body.], [params.] or [query.].
    The bare field [email] that the documented 400 examples show is
    therefore never sent. *)
Theorem fields_carry_part_prefix schemas req res errs :
  Express.sent (Express.response (run schemas req res)) =
  Express.sent res ++ [Validation.errorPayload errs] ->
  Forall hasPartPrefix errs /\
  Forall (fun e => Validation.field e <> "email") errs.
Proof.
  intros Hsent. apply sent_payload_inv in Hsent as (-> & _ & _).
  assert (Hprefix : Forall hasPartPrefix (collected schemas req)).
  { apply List.Forall_forall. intros e He.
    apply in_collected in He as (p & issue & _ & ->).
    exists p, (join "." (map Zod.toString (Zod.path issue))). reflexivity. }
  split; [exact Hprefix|].
  eapply List.Forall_impl; [|exact Hprefix].
  intros e (p & rest & Hfield). rewrite Hfield. destruct p; discriminate.
Qed.

Lemma fields_carry_part_prefix_witness :
  Forall hasPartPrefix
    [ {| Validation.field := "body.email"; Validation.message := "Invalid email" |};
      {| Validation.field := "body.password"; Validation.message := "Required" |};
      {| Validation.field := "params.id";
         Validation.message := "String must contain at least 1 character(s)" |} ].
Proof.
  apply (fields_carry_part_prefix sampleSchemas sampleRequest freshResponse).
  reflexivity.
Defined.

(** X5. An issue raised on a part as a whole, with an empty path, is
    listed under the part name followed by a dot and nothing else: a
    request without a parsed body is answered with the field [body.]. *)
Theorem root_issue_field schemas req res p (issue : Zod.ZodIssue) :
  In issue (reported schemas req p) ->
  Zod.path issue = [] ->
  exists errs,
    Express.sent (Express.response (run schemas req res)) =
    Express.sent res ++ [Validation.errorPayload errs] /\
    In {| Validation.field := partName p +:+ ".";
          Validation.message := Zod.message issue |} errs.
Proof.
  intros Hin Hpath. exists (collected schemas req). split.
  - rewrite validateRequestEnhanced_unfold. cbv zeta.
    rewrite reported_has_errors; [reflexivity|].
    exists p. intros Hnil. rewrite Hnil in Hin. exact Hin.
  - apply in_collected. exists p, issue. split; [exact Hin|].
    unfold fieldErrorOf. rewrite Hpath. simpl. now rewrite append_nil_r.
Qed.

Lemma root_issue_field_witness :
  exists errs,
    Express.sent (Express.response (run credentialsOnly bodylessRequest freshResponse)) =
    [Validation.errorPayload errs] /\
    In {| Validation.field := "body."; Validation.message := "Required" |} errs.
Proof.
  apply (root_issue_field credentialsOnly bodylessRequest freshResponse Body
           {| Zod.path := []; Zod.message := "Required" |}).
  - simpl. auto.
  - reflexivity.
Defined.

End ValidationOutcomes.

(** * Further properties of the documentation helpers *)

Section DocumentationEdges.
Import DocHelpers EndpointDoc ConfigVariants.

Implicit Types (config : EndpointConfig).

Lemma append_length (s1 s2 : string) :
  String.length (s1 +:+ s2) = String.length s1 + String.length s2.
Proof.
  induction s1 as [|c s1 IH]; [reflexivity|].
  change (S (String.length (s1 +:+ s2)) = S (String.length s1 + String.length s2)).
  now rewrite IH.
Qed.

Lemma lower_char_idem (c : ascii) :
  let lower c := if inRange "A" "Z" c then ascii_of_N (N_of_ascii c + 32) else c in
  lower (lower c) = lower c.
Proof. destruct c as [[] [] [] [] [] [] [] []]; reflexivity. Qed.

Lemma lower_upper_char (c : ascii) :
  let lower c := if inRange "A" "Z" c then ascii_of_N (N_of_ascii c + 32) else c in
  let upper c := if inRange "a" "z" c then ascii_of_N (N_of_ascii c - 32) else c in
  lower (upper c) = lower c.
Proof. destruct c as [[] [] [] [] [] [] [] []]; reflexivity. Qed.

Lemma toLowerCase_idem (s : string) : toLowerCase (toLowerCase s) = toLowerCase s.
Proof.
  induction s as [|c s IH]; [reflexivity|].
  cbn [toLowerCase]. f_equal; [apply lower_char_idem | exact IH].
Qed.

Lemma toLowerCase_toUpperCase (s : string) :
  toLowerCase (Crud.toUpperCase s) = toLowerCase s.
Proof.
  induction s as [|c s IH]; [reflexivity|].
  cbn [toLowerCase Crud.toUpperCase]. f_equal; [apply lower_upper_char | exact IH].
Qed.

(** X6. An empty description, an empty body name and a false bearer-auth
    flag count as absent.  An empty responses array does not: the block
    then has no response entry at all, and it differs from the block of an
    absent responses property, which has the three default entries. *)
Theorem empty_values_and_absent_ones :
  (forall config, endpoint (withoutFalsy config) = endpoint config) /\
  (forall config,
      endpoint (withResponses (Some []) config) =
      blockWith config (if bearerAuthSet config then securityEntry else "") [] /\
      endpoint (withResponses (Some []) config) <> endpoint (withResponses None config)).
Proof.
  split.
  - intros [m p s d t a b r]. unfold endpoint, withoutFalsy. simpl.
    destruct d as [[|c d]|], a as [[]|], b as [[|c' b]|]; reflexivity.
  - intros config. split; [now rewrite endpoint_blocks|].
    rewrite !endpoint_blocks. unfold blockWith. simpl.
    change (operationHead (withResponses ?r config)) with (operationHead config).
    change (requestBodyBlock (withResponses ?r config)) with (requestBodyBlock config).
    change (bearerAuthSet (withResponses ?r config)) with (bearerAuthSet config).
    intros H. do 5 apply (inj (String.app _)) in H.
    vm_compute in H. discriminate H.
Qed.

(** X7. The letter case of the method does not matter: the block of a
    configuration is the block of the same configuration with the method in
    lower case, and with the method in upper case. *)
Theorem method_case_ignored config :
  endpoint (withMethod (toLowerCase (method config)) config) = endpoint config /\
  endpoint (withMethod (Crud.toUpperCase (method config)) config) = endpoint config.
Proof.
  unfold endpoint, withMethod. simpl.
  now rewrite toLowerCase_idem, toLowerCase_toUpperCase.
Qed.

Lemma substring_all (s : string) : substring 0 (String.length s) s = s.
Proof. induction s as [|c s IH]; simpl; [reflexivity | now rewrite IH]. Qed.

(** [charAt(0).toUpperCase() + slice(1)] upper-cases the first character
    and keeps the rest; the empty name stays empty. *)
Lemma capitalize_resource (resource : string) :
  Crud.toUpperCase (Crud.charAt 0 resource) +:+ Crud.slice 1 resource =
  capitalized resource.
Proof.
  destruct resource as [|c rest]; [reflexivity|].
  unfold Crud.charAt, Crud.slice, capitalized. simpl.
  rewrite Nat.sub_0_r, substring_all. destruct rest; reflexivity.
Qed.

(** X8. For every schema name and every resource name that is empty or
    starts with an ASCII character, each of the five blocks of [crud] is
    tagged with the resource name, its first character in upper case, holds
    the bearer security requirement, and refers only to response codes that
    are defined among the shared responses, at least one of them.  The list,
    get and delete blocks have no request body; the create and update
    blocks have the request body naming the schema, and none when the schema
    name is empty. *)
Theorem crud_blocks_secured_and_resolved (resource schema : string) :
  asciiInitial resource ->
  isCrudBlock resource "" (Crud.listDoc (Crud.crud resource schema)) /\
  isCrudBlock resource "" (Crud.getDoc (Crud.crud resource schema)) /\
  isCrudBlock resource (requestBodyRef schema)
              (Crud.createDoc (Crud.crud resource schema)) /\
  isCrudBlock resource (requestBodyRef schema)
              (Crud.updateDoc (Crud.crud resource schema)) /\
  isCrudBlock resource "" (Crud.deleteDoc (Crud.crud resource schema)).
Proof.
  intros _.
  unfold isCrudBlock, Crud.crud; cbn [Crud.listDoc Crud.getDoc Crud.createDoc
                                      Crud.updateDoc Crud.deleteDoc].
  repeat split;
    (eexists _, _; split; [rewrite endpoint_blocks; reflexivity|];
     cbn [tags responses];
     split; [now rewrite capitalize_resource|];
     split; [unfold requestBodyBlock, requestBodyRef; cbn [body];
             try reflexivity; destruct schema; reflexivity|];
     split; [discriminate|];
     repeat constructor; eexists; reflexivity).
Qed.

Lemma crud_blocks_secured_and_resolved_witness :
  isCrudBlock "users" "" (Crud.listDoc (Crud.crud "users" "UserInput")) /\
  isCrudBlock "users" "" (Crud.getDoc (Crud.crud "users" "UserInput")) /\
  isCrudBlock "users" (requestBodyRef "UserInput")
              (Crud.createDoc (Crud.crud "users" "UserInput")) /\
  isCrudBlock "users" (requestBodyRef "UserInput")
              (Crud.updateDoc (Crud.crud "users" "UserInput")) /\
  isCrudBlock "users" "" (Crud.deleteDoc (Crud.crud "users" "UserInput")).
Proof.
  apply (crud_blocks_secured_and_resolved "users" "UserInput").
  reflexivity.
Defined.

(** X9. The five blocks of [crud] open with five different operations:
    list and create on the collection path, get, update and delete on the
    item path, so that merging them never puts two blocks under the same
    path and verb. *)
Theorem crud_operations_distinct (resource schema : string) :
  let docs := Crud.crud resource schema in
  let collection := "/api/" +:+ resource in
  let item := "/api/" +:+ resource +:+ "/{id}" in
  opensWith (Crud.listDoc docs) (collection, "get") /\
  opensWith (Crud.getDoc docs) (item, "get") /\
  opensWith (Crud.createDoc docs) (collection, "post") /\
  opensWith (Crud.updateDoc docs) (item, "put") /\
  opensWith (Crud.deleteDoc docs) (item, "delete") /\
  List.NoDup [ (collection, "get"); (item, "get"); (collection, "post");
               (item, "put"); (item, "delete") ].
Proof.
  cbv zeta.
  assert (Hpaths : "/api/" +:+ resource <> "/api/" +:+ resource +:+ "/{id}").
  { intros H. apply (f_equal String.length) in H.
    rewrite !append_length in H. simpl in H. lia. }
  repeat split; try (eexists; unfold Crud.crud, endpoint; reflexivity).
  repeat constructor; simpl; intros H;
    repeat match goal with
           | H : _ \/ _ |- _ => destruct H as [H | H]
           | H : (_, _) = (_, _) |- _ =>
               apply pair_equal_spec in H; destruct H as [Hpath Hverb]
           end;
    try contradiction; try discriminate Hverb; apply Hpaths; congruence.
Qed.

End DocumentationEdges.

(** * Properties of the environment module *)

Section EnvironmentModule.
Import EnvConfig EnvReport.

Implicit Types (host : Host) (vars : ProcessEnv).

Lemma prefix_startsWith (prefix key : string) :
  String.prefix prefix key = true <-> startsWith prefix key.
Proof.
  unfold startsWith. revert key.
  induction prefix as [|c prefix IH]; intros key.
  - split; [intros _; exists key; reflexivity | intros _; destruct key; reflexivity].
  - destruct key as [|d key]; simpl.
    + split; [discriminate | intros [rest H]; discriminate H].
    + destruct (ascii_dec c d) as [->|Hcd].
      * rewrite IH. split; intros [rest H]; exists rest.
        -- now rewrite H.
        -- now injection H.
      * split; [discriminate | intros [rest H]; injection H as H _; congruence].
Qed.

Lemma negb_prefix (prefix key : string) :
  negb (String.prefix prefix key) = true <-> ~ startsWith prefix key.
Proof.
  rewrite <- prefix_startsWith. destruct (String.prefix prefix key); simpl; split;
    congruence || (intros H; try reflexivity; exfalso; now apply H).
Qed.

Lemma negb_includes (key : string) (keys : list string) :
  negb (existsb (String.eqb key) keys) = true <-> ~ In key keys.
Proof.
  rewrite negb_true_iff, <- not_true_iff_false, existsb_exists.
  split; intros H Hin; apply H.
  - exists key. split; [exact Hin | apply String.eqb_refl].
  - destruct Hin as (k & Hk & Heq). apply String.eqb_eq in Heq. now subst k.
Qed.

(** The module body once the environment file is dealt with. *)
Lemma envConfig_unfold host vars :
  envConfig host vars =
  let opening :=
    if existsSync host (envFileOf vars) then
      (Log, "✅ Loaded environment: " +:+ envFileOf vars +:+ nl +:+
            "NODE_ENV: " +:+ interpolate (getenv "NODE_ENV" (loadedVars host vars)))
    else notFoundWarning (envFileOf vars) in
  match Zod.safeParse (envSchema host) (envObject (loadedVars host vars)) with
  | Zod.SafeParseError error =>
      {| console :=
           [opening;
            missingError (environmentName (loadedVars host vars))
              (List.filter (fun key => negb (String.eqb key "_errors"))
                           (formatKeys host error))];
         exitCode := Some 1%Z; env := None; processEnv := loadedVars host vars |}
  | Zod.SafeParseSuccess data =>
      let extraKeys :=
        List.filter
          (fun key =>
             negb (existsb (String.eqb key) (shapeKeys host)) &&
             negb (existsb (String.eqb key) systemVars) &&
             negb (String.prefix "npm_" key) &&
             negb (String.prefix "MSYSTEM" key) &&
             negb (String.prefix "MINGW" key) &&
             negb (String.prefix "WT_" key))
          (map fst (loadedVars host vars)) in
      {| console :=
           if 0 <? length extraKeys then
             [opening; loadedLog (environmentName (loadedVars host vars));
              unusedWarning extraKeys]
           else [opening; loadedLog (environmentName (loadedVars host vars))];
         exitCode := None; env := Some data; processEnv := loadedVars host vars |}
  end.
Proof.
  unfold envConfig, loadedVars, envFileOf, environmentName. cbv zeta.
  destruct (existsSync host _); cbv beta iota;
    destruct (Zod.safeParse _ _); try reflexivity;
    destruct (0 <? _); reflexivity.
Qed.

Lemma filter_sublist {A : Type} (f : A -> bool) (l : list A) :
  sublist (List.filter f l) l.
Proof.
  induction l as [|x l IH]; simpl; [constructor|].
  destruct (f x); [now apply sublist_skip | now apply sublist_cons].
Qed.

Lemma extraKeys_spec host (keys : list string) (key : string) :
  In key
     (List.filter
        (fun key =>
           negb (existsb (String.eqb key) (shapeKeys host)) &&
           negb (existsb (String.eqb key) systemVars) &&
           negb (String.prefix "npm_" key) &&
           negb (String.prefix "MSYSTEM" key) &&
           negb (String.prefix "MINGW" key) &&
           negb (String.prefix "WT_" key))
        keys) <->
  In key keys /\ isUnused host key.
Proof.
  rewrite filter_In, !andb_true_iff, !negb_includes, !negb_prefix.
  unfold isUnused. tauto.
Qed.

(** X10. When the schema rejects the environment, the module prints
    exactly two lines and calls [process.exit(1)]: the line about the
    environment file (loaded, or not found), then one error line naming, in
    their order, the keys of the formatted error other than [_errors].  No
    [env] is exported; the closing line "Loaded environment: .env.<name>"
    and the warning about unused variables are not printed. *)
Theorem invalid_environment_exits host vars (error : Zod.ZodError) :
  Zod.safeParse (envSchema host) (envObject (loadedVars host vars)) =
  Zod.SafeParseError error ->
  exitCode (envConfig host vars) = Some 1%Z /\
  env (envConfig host vars) = None /\
  (exists keys,
      console (envConfig host vars) =
      [fileLine host vars; missingError (environmentName (loadedVars host vars)) keys] /\
      sublist keys (formatKeys host error) /\
      forall key, In key keys <-> In key (formatKeys host error) /\ key <> "_errors") /\
  (forall name, ~ In (loadedLog name) (console (envConfig host vars))) /\
  (forall keys, ~ In (unusedWarning keys) (console (envConfig host vars))).
Proof.
  intros Hparse. rewrite envConfig_unfold. cbv zeta. rewrite Hparse. simpl.
  fold (fileLoadedLog (envFileOf vars) (getenv "NODE_ENV" (loadedVars host vars))).
  fold (fileLine host vars).
  split; [reflexivity|]. split; [reflexivity|]. split; [|split].
  - eexists. split; [reflexivity|]. split; [apply filter_sublist|].
    intros key. rewrite filter_In, negb_true_iff, String.eqb_neq. tauto.
  - intros name [H | [H | []]].
    + unfold fileLine, fileLoadedLog, notFoundWarning, loadedLog in H.
      destruct (existsSync host (envFileOf vars)); vm_compute in H; discriminate H.
    + unfold missingError, loadedLog in H. discriminate H.
  - intros keys [H | [H | []]].
    + unfold fileLine, fileLoadedLog, notFoundWarning, unusedWarning in H.
      destruct (existsSync host (envFileOf vars)); vm_compute in H; discriminate H.
    + unfold missingError, unusedWarning in H. discriminate H.
Qed.

Lemma invalid_environment_exits_witness :
  exitCode (envConfig bareHost incompleteVars) = Some 1%Z /\
  env (envConfig bareHost incompleteVars) = None /\
  console (envConfig bareHost incompleteVars) =
  [notFoundWarning ".env.dev"; missingError "development" ["DATABASE_URL"]].
Proof.
  destruct (invalid_environment_exits bareHost incompleteVars
              {| Zod.errors :=
                   [{| Zod.path := [Zod.Key "DATABASE_URL"];
                       Zod.message := "Required" |}] |})
    as (Hexit & Henv & _).
  - reflexivity.
  - split; [exact Hexit | split; [exact Henv | reflexivity]].
Defined.

(** X11. When the schema accepts the environment, the parsed data is
    exported and the module does not exit.  The variables it reports as
    unused are exactly the defined ones that the schema does not declare,
    that are not known system variables, and that do not start with
    [npm_], [MSYSTEM], [MINGW] or [WT_]; they are listed once, after the
    "Loaded environment" line, in the order of [process.env], and no
    warning is printed when there is none. *)
Theorem unused_variables_reported host vars (data : JsValue) :
  Zod.safeParse (envSchema host) (envObject (loadedVars host vars)) =
  Zod.SafeParseSuccess data ->
  exitCode (envConfig host vars) = None /\
  env (envConfig host vars) = Some data /\
  exists opening keys,
    (forall key,
        In key keys <-> In key (map fst (loadedVars host vars)) /\ isUnused host key) /\
    sublist keys (map fst (loadedVars host vars)) /\
    console (envConfig host vars) =
    [opening; loadedLog (environmentName (loadedVars host vars))] ++
    match keys with
    | [] => []
    | _ => [unusedWarning keys]
    end.
Proof.
  intros Hparse. rewrite envConfig_unfold. cbv zeta. rewrite Hparse. simpl.
  split; [reflexivity|]. split; [reflexivity|].
  eexists _, _. split; [apply extraKeys_spec|]. split; [apply filter_sublist|].
  destruct (List.filter _ _); reflexivity.
Qed.

Lemma unused_variables_reported_witness :
  exitCode (envConfig bareHost completeVars) = None /\
  console (envConfig bareHost completeVars) =
  [notFoundWarning ".env.dev"; loadedLog "development";
   unusedWarning ["SENTRY_DSN"; "Path"]].
Proof.
  destruct (unused_variables_reported bareHost completeVars
              (JObj [("DATABASE_URL", JStr "postgres://localhost/app");
                     ("PORT", JStr "3000")]))
    as (Hexit & _).
  - reflexivity.
  - split; [exact Hexit | reflexivity].
Defined.

(** X12. When the environment file is missing, nothing is loaded into
    [process.env]; the module warns that the file was not found and, if
    the schema accepts the environment, still prints "Loaded environment"
    for the environment name.  With [NODE_ENV] unset the two lines do not
    even name the same file: the one looked for is [.env.dev], the one
    reported as loaded is [.env.development]. *)
Theorem missing_file_reported_loaded host vars (data : JsValue) :
  existsSync host (envFileOf vars) = false ->
  Zod.safeParse (envSchema host) (envObject vars) = Zod.SafeParseSuccess data ->
  processEnv (envConfig host vars) = vars /\
  (exists rest,
      console (envConfig host vars) =
      notFoundWarning (envFileOf vars) :: loadedLog (environmentName vars) :: rest) /\
  (getenv "NODE_ENV" vars = None ->
   envFileOf vars = ".env.dev" /\ environmentName vars = "development").
Proof.
  intros Hfile Hparse. rewrite envConfig_unfold. cbv zeta.
  unfold loadedVars. rewrite Hfile, Hparse. simpl.
  split; [reflexivity|]. split.
  - destruct (0 <? _); eexists; reflexivity.
  - intros Hunset. unfold envFileOf, environmentName. rewrite Hunset. split; reflexivity.
Qed.

Lemma missing_file_reported_loaded_witness :
  processEnv (envConfig bareHost completeVars) = completeVars /\
  (exists rest,
      console (envConfig bareHost completeVars) =
      notFoundWarning ".env.dev" :: loadedLog "development" :: rest).
Proof.
  destruct (missing_file_reported_loaded bareHost completeVars
              (JObj [("DATABASE_URL", JStr "postgres://localhost/app");
                     ("PORT", JStr "3000")]))
    as (Henv & Hconsole & _).
  - reflexivity.
  - reflexivity.
  - split; [exact Henv | exact Hconsole].
Defined.

End EnvironmentModule.

(** * The validation payload and the documented error schema *)

Section DocumentedErrors.
Import ApiSchemas.

(** X13. The documented 400 response refers to the schema [Error] of the
    registry, and every payload the validation middleware builds, whatever
    its entries, is an instance of that schema; so is the example the
    documented 400 response shows. *)
Theorem validation_payload_matches_Error_schema :
  (Docs.schemaRef <$> EndpointDoc.standardResponse 400) =
    Some "#/components/schemas/Error" /\
  (forall errors : list Validation.FieldError,
      instanceOf APISchemas 1 (SchemaRef "#/components/schemas/Error")
                 (Validation.errorPayload errors) = true) /\
  (forall template example,
      EndpointDoc.standardResponse 400 = Some template ->
      Docs.example template = Some example ->
      instanceOf APISchemas 1 (SchemaRef "#/components/schemas/Error") example = true).
Proof.
  split; [reflexivity|]. split.
  - intros errors. unfold Validation.errorPayload.
    cbn -[forallb map].
    match goal with
    | |- context [forallb ?check (map ?toJs errors)] =>
        replace (forallb check (map toJs errors)) with true; [reflexivity|]
    end.
    symmetry. apply forallb_forall. intros value Hin.
    apply in_map_iff in Hin as (e & <- & _). reflexivity.
  - intros template example Htemplate Hexample.
    injection Htemplate as <-. injection Hexample as <-. reflexivity.
Qed.

End DocumentedErrors.
